(** * Remote MCP server for Smartsheet: a shallow embedding of
      [src/remote-server.ts] and the properties of its auth gate, client
      cache, tool registrars and JSON-RPC router.

    The embedding follows the TypeScript source function by function and
    keeps its names.  The domain tool modules ([getDiscussionTools],
    [getFolderTools], ...) and the [SmartsheetAPI] class are imported by the
    source from other files; they are taken as parameters here. *)

From Stdlib Require Import String Ascii List ZArith Bool Lia Arith DecimalString Sorted.
Import ListNotations.

#[local] Open Scope string_scope.
#[local] Open Scope list_scope.
#[local] Set Warnings "-register-all".

(** ** JavaScript values *)

Module Js.

(** [Number.isSafeInteger]: an integer a double holds exactly, and prints
    digit for digit. *)
Definition isSafeInteger (n : Z) : bool := Z.leb (Z.abs n) 9007199254740991.

(** The values that travel through the server: what [JSON.parse] produces,
    plus [undefined] for absent properties.  The numbers of the model are
    the safe integers (request ids and the like); fractions and larger
    numbers have no value here.  An object is the list of the properties
    visible on it, with distinct names, in enumeration order, as
    [Object.entries] yields them. *)
Inductive value : Type :=
| Undefined
| Null
| Bool (b : bool)
| Number (n : Z) (safe : isSafeInteger n = true)
| Str (s : string)
| Arr (items : list value)
| Obj (fields : list (string * value)).

(** A number written out, as in [Num 7]. *)
Abbreviation Num n := (Number n eq_refl) (only parsing).

(** [!!v] *)
Definition truthy (v : value) : bool :=
  match v with
  | Undefined | Null => false
  | Bool b => b
  | Number n _ => negb (Z.eqb n 0)
  | Str s => negb (String.eqb s "")
  | Arr _ | Obj _ => true
  end.

(** [typeof v === 'object'] *)
Definition typeof_object (v : value) : bool :=
  match v with
  | Null | Arr _ | Obj _ => true
  | _ => false
  end.

(** A JSON object, as opposed to an array or a primitive. *)
Definition isObject (v : value) : bool :=
  match v with Obj _ => true | _ => false end.

(** [Array.isArray(v)] *)
Definition isArray (v : value) : bool :=
  match v with Arr _ => true | _ => false end.

(** [a || b] *)
Definition or_else (a b : value) : value := if truthy a then a else b.

(** Own-property lookup in a property list. *)
Fixpoint assoc {A : Type} (k : string) (l : list (string * A)) : option A :=
  match l with
  | [] => None
  | (k', v) :: rest => if String.eqb k k' then Some v else assoc k rest
  end.

(** [new Error(msg)], and the [TypeError]s the engine throws: the only
    property the server reads of an error is [message]. *)
Definition mkError (msg : string) : value := Obj [("message", Str msg)].

(** [v.name] for a property name that is neither an array index nor
    [length] (the source reads [method], [params], [id], [name],
    [arguments], [description] and [message] only).  On [null] and
    [undefined] the read throws a [TypeError], returned on the left. *)
Definition get (v : value) (name : string) : value + value :=
  match v with
  | Undefined =>
      inl (mkError ("Cannot read properties of undefined (reading '" ++ name ++ "')"))
  | Null =>
      inl (mkError ("Cannot read properties of null (reading '" ++ name ++ "')"))
  | Obj fields =>
      inr (match assoc name fields with Some x => x | None => Undefined end)
  | _ => inr Undefined
  end.

(** [v?.name] *)
Definition get_opt (v : value) (name : string) : value :=
  match get v name with
  | inr x => x
  | inl _ => Undefined
  end.

(** [name in v], for [v] an object. *)
Definition has (name : string) (v : value) : bool :=
  match v with
  | Obj fields => match assoc name fields with Some _ => true | None => false end
  | _ => false
  end.

(** An own data property written: overwritten in place, or appended. *)
Fixpoint define_prop (k : string) (v : value) (fields : list (string * value))
  : list (string * value) :=
  match fields with
  | [] => [(k, v)]
  | (k', v') :: rest =>
      if String.eqb k k' then (k', v) :: rest else (k', v') :: define_prop k v rest
  end.

(** [obj[k] = v] on a plain object, for [v] an object.  The name
    [__proto__] is the accessor of [Object.prototype]: assigning to it
    changes the prototype of [obj] and adds no property of its own. *)
Definition set_prop (k : string) (v : value) (fields : list (string * value))
  : list (string * value) :=
  if String.eqb k "__proto__" then fields else define_prop k v fields.

Definition string_of_Z (n : Z) : string := NilZero.string_of_int (Z.to_int n).

(** [`${v}`]: the string conversion a template literal applies, which
    throws on the left.  A safe integer prints its digits.  An array is
    joined with commas, [null] and [undefined] elements printing as empty.
    An object parsed from JSON prints as [[object Object]] through
    [Object.prototype.toString], unless it has a [toString] property of its
    own: that one is no function, neither is whatever [valueOf] gives a
    primitive, and the conversion throws a [TypeError]. *)
Fixpoint to_string (v : value) : value + string :=
  match v with
  | Undefined => inr "undefined"
  | Null => inr "null"
  | Bool true => inr "true"
  | Bool false => inr "false"
  | Number n _ => inr (string_of_Z n)
  | Str s => inr s
  | Arr items =>
      (fix join (xs : list value) : value + string :=
         match xs with
         | [] => inr ""
         | x :: rest =>
             match
               match x with
               | Undefined | Null => inr ""
               | _ => to_string x
               end
             with
             | inl e => inl e
             | inr text =>
                 match rest with
                 | [] => inr text
                 | _ =>
                     match join rest with
                     | inl e => inl e
                     | inr more => inr (text ++ "," ++ more)%string
                     end
                 end
             end
         end) items
  | Obj fields =>
      match assoc "toString" fields with
      | Some _ => inl (mkError "Cannot convert object to primitive value")
      | None => inr "[object Object]"
      end
  end.

(** [v === s] for a string [s]. *)
Definition eq_str (v : value) (s : string) : bool :=
  match v with
  | Str s' => String.eqb s' s
  | _ => false
  end.

(** [Object.keys(v).length], which throws on [null] and [undefined]. *)
Definition keys_length (v : value) : value + nat :=
  match v with
  | Undefined | Null => inl (mkError "Cannot convert undefined or null to object")
  | Bool _ | Number _ _ => inr 0
  | Str s => inr (String.length s)
  | Arr items => inr (List.length items)
  | Obj fields => inr (List.length fields)
  end.

End Js.

(** ** HTTP requests and JSON-RPC responses *)

(** [req.headers]: Node lower-cases header names and gives one string per
    name; a header sent with no value reads as the empty string. *)
Record Request : Type := mkRequest {
  req_method : string;
  req_path : string;
  req_headers : list (string * string);
  req_body : Js.value
}.

Definition header (req : Request) (name : string) : option string :=
  Js.assoc name (req_headers req).

(** [!h] for a header read: absent or empty. *)
Definition header_falsy (h : option string) : bool :=
  match h with
  | None => true
  | Some s => String.eqb s ""
  end.

(** The result member of a successful reply. *)
Record ToolDefinition : Type := mkToolDefinition {
  name : string;
  description : string;
  inputSchema : Js.value
}.

Inductive Result : Type :=
| InitializeResult (protocolVersion serverName serverVersion : string)
| ToolsResult (tools : list ToolDefinition)
| CallResult (result : Js.value).

(** The object handed to [res.json].  An [id] of [Js.Undefined] is an absent
    member once serialized. *)
Inductive Reply : Type :=
| Success (result : Result) (id : Js.value)
| Failure (code : Z) (message : string) (id : Js.value).

Definition reply_id (r : Reply) : Js.value :=
  match r with
  | Success _ id => id
  | Failure _ _ id => id
  end.

Record Response : Type := mkResponse {
  status : Z;
  body : Reply
}.

(** [res.json(r)] answers with status 200 unless [res.status] was called. *)
Definition json (r : Reply) : Response := mkResponse 200 r.

(** ** Authentication middleware *)

Record Config : Type := mkConfig {
  REQUIRE_AUTH : bool;
  SECRET_KEY : string;
  packageVersion : string
}.

Inductive Middleware : Type :=
| Next
| Respond (res : Response).

Definition authMiddleware (cfg : Config) (req : Request) : Middleware :=
  if negb (REQUIRE_AUTH cfg) then Next
  else if String.eqb (SECRET_KEY cfg) "" then Next
  else if String.eqb (req_path req) "/mcp" && String.eqb (req_method req) "POST" then
    let body := req_body req in
    let method := Js.get_opt body "method" in
    if Js.eq_str method "tools/call" then
      let providedKey := header req "x-secret-key" in
      if header_falsy providedKey then
        Respond (mkResponse 401
          (Failure (-32001) "Authentication required for tool execution"
                   (Js.get_opt body "id")))
      else if negb (match providedKey with
                    | Some k => String.eqb k (SECRET_KEY cfg)
                    | None => false
                    end) then
        Respond (mkResponse 401
          (Failure (-32001) "Invalid authentication for tool execution"
                   (Js.get_opt body "id")))
      else Next
    else Next
  else Next.

(** ** API client cache *)

(** [new SmartsheetAPI(token, baseUrl, flag)]: the class lives outside this
    file, so a client is the triple its constructor received. *)
Record SmartsheetAPI : Type := mkSmartsheetAPI {
  accessToken : string;
  baseUrl : string;
  apiFlag : bool
}.

(** One entry of the [Map].  A JavaScript [Map] iterates in insertion order;
    [entry_seq] numbers the insertions so that this order can be named in
    statements.  No operation below reads it. *)
Record Entry : Type := mkEntry {
  entry_key : string;
  entry_api : SmartsheetAPI;
  entry_seq : nat
}.

Record Cache : Type := mkCache {
  apiInstances : list Entry;
  insertions : nat
}.

Definition emptyCache : Cache := mkCache [] 0.

Module JsMap.

Fixpoint get (k : string) (m : list Entry) : option SmartsheetAPI :=
  match m with
  | [] => None
  | e :: rest => if String.eqb k (entry_key e) then Some (entry_api e) else get k rest
  end.

(** [m.set(k, v)]: an existing key keeps its place, a new one goes last. *)
Fixpoint set (k : string) (v : SmartsheetAPI) (seq : nat) (m : list Entry) : list Entry :=
  match m with
  | [] => [mkEntry k v seq]
  | e :: rest =>
      if String.eqb k (entry_key e) then mkEntry k v (entry_seq e) :: rest
      else e :: set k v seq rest
  end.

Fixpoint delete (k : string) (m : list Entry) : list Entry :=
  match m with
  | [] => []
  | e :: rest => if String.eqb k (entry_key e) then rest else e :: delete k rest
  end.

(** [m.keys().next().value] *)
Definition firstKey (m : list Entry) : option string :=
  match m with
  | [] => None
  | e :: _ => Some (entry_key e)
  end.

Definition size (m : list Entry) : nat := List.length m.

End JsMap.

(** [apiEndpoint || dflt] for an optional string argument. *)
Definition endpoint_or (apiEndpoint : option string) (dflt : string) : string :=
  match apiEndpoint with
  | Some e => if String.eqb e "" then dflt else e
  | None => dflt
  end.

Definition credentialKey (apiKey : string) (apiEndpoint : option string) : string :=
  apiKey ++ ":" ++ endpoint_or apiEndpoint "default".

Definition capacity : nat := 100.

Definition getApiInstance (apiKey : string) (apiEndpoint : option string) (c : Cache)
  : SmartsheetAPI * Cache :=
  let key := credentialKey apiKey apiEndpoint in
  match JsMap.get key (apiInstances c) with
  | Some api => (api, c)
  | None =>
      let api :=
        mkSmartsheetAPI apiKey (endpoint_or apiEndpoint "https://api.smartsheet.com/2.0") true in
      let m := JsMap.set key api (insertions c) (apiInstances c) in
      let m' :=
        if Nat.ltb capacity (JsMap.size m) then
          match JsMap.firstKey m with
          | Some firstKey =>
              if negb (String.eqb firstKey "") then JsMap.delete firstKey m else m
          | None => m
          end
        else m in
      (api, mkCache m' (S (insertions c)))
  end.

(** A sequence of [getApiInstance] calls, oldest first. *)
Fixpoint getApiInstances (calls : list (string * option string)) (c : Cache) : Cache :=
  match calls with
  | [] => c
  | (apiKey, apiEndpoint) :: rest =>
      getApiInstances rest (snd (getApiInstance apiKey apiEndpoint c))
  end.

(** ** Tool registration *)

(** What a computation that may throw completes with. *)
Inductive Completion (A : Type) : Type :=
| Normal (a : A)
| Throw (e : Js.value).
Arguments Normal {A} a.
Arguments Throw {A} e.

Definition bind {A B : Type} (c : Completion A) (k : A -> Completion B) : Completion B :=
  match c with
  | Normal a => k a
  | Throw e => Throw e
  end.

(** What an async function comes to: a completion, or nothing at all when
    it awaits a promise that never settles. *)
Inductive Awaited (A : Type) : Type :=
| Settled (c : Completion A)
| Unsettled.
Arguments Settled {A} c.
Arguments Unsettled {A}.

Notation "x <- c ;; k" := (bind c (fun x => k))
  (at level 61, c at next level, right associativity).

(** What [await] finds of a value or promise: fulfilled, rejected, or
    pending for ever. *)
Inductive Promise : Type :=
| Fulfilled (v : Js.value)
| Rejected (e : Js.value)
| Pending.

(** A handler either throws while it is called, or returns a value or
    promise. *)
Inductive HandlerRun : Type :=
| Throws (e : Js.value)
| Returns (p : Promise).

Definition Handler : Type := Js.value -> HandlerRun.

(** One call [server.tool(name, description, schemaOrHandler, handler?)].
    [tc_schema] is [None] for the three-argument form, where the handler
    comes third and [handler] is [undefined]. *)
Record ToolCall : Type := mkToolCall {
  tc_name : string;
  tc_description : string;
  tc_schema : option Js.value;
  tc_handler : Handler
}.

(** What one [getXTools(server, api)] does to the server it is given: a
    series of [server.tool] calls, after which it returns or throws.  Both
    replacements of [server.tool] return the server itself, so a module
    learns nothing from them and the series is the same under either. *)
Record Registration : Type := mkRegistration {
  reg_calls : list ToolCall;
  reg_throws : option Js.value
}.

(** The seven tool modules the server imports. *)
Record ToolModules : Type := mkToolModules {
  getDiscussionTools : SmartsheetAPI -> Registration;
  getFolderTools : SmartsheetAPI -> Registration;
  getSearchTools : SmartsheetAPI -> Registration;
  getSheetTools : SmartsheetAPI -> bool -> Registration;
  getUpdateRequestTools : SmartsheetAPI -> Registration;
  getUserTools : SmartsheetAPI -> Registration;
  getWorkspaceTools : SmartsheetAPI -> Registration
}.

Section Registrar.

Context {St : Type}.

(** The replacement installed as [tempServer.tool]. *)
Variable tool : St -> ToolCall -> Completion St.

Fixpoint toolCalls (calls : list ToolCall) (s : St) : Completion St :=
  match calls with
  | [] => Normal s
  | tc :: rest => s' <- tool s tc ;; toolCalls rest s'
  end.

Definition register (r : Registration) (s : St) : Completion St :=
  s' <- toolCalls (reg_calls r) s ;;
  match reg_throws r with
  | Some e => Throw e
  | None => Normal s'
  end.

(** The registration sweep both registrars run. *)
Definition registerAll (M : ToolModules) (api : SmartsheetAPI) (allowDeleteTools : bool)
  (s : St) : Completion St :=
  s1 <- register (getDiscussionTools M api) s ;;
  s2 <- register (getFolderTools M api) s1 ;;
  s3 <- register (getSearchTools M api) s2 ;;
  s4 <- register (getSheetTools M api allowDeleteTools) s3 ;;
  s5 <- register (getUpdateRequestTools M api) s4 ;;
  s6 <- register (getUserTools M api) s5 ;;
  register (getWorkspaceTools M api) s6.

End Registrar.

(** *** Recording registrar: [getToolDefinitions] *)

(** [value && typeof value === 'object' && 'description' in value] *)
Definition described (v : Js.value) : bool :=
  Js.truthy v && Js.typeof_object v && Js.has "description" v.

(** The loop over [Object.entries(inputSchema)], carrying [properties] and
    [required]. *)
Fixpoint convertEntries (entries : list (string * Js.value))
  (properties : list (string * Js.value)) (required : list string)
  : list (string * Js.value) * list string :=
  match entries with
  | [] => (properties, required)
  | (key, v) :: rest =>
      if described v then
        let property :=
          Js.Obj [("type", Js.Str "string");
                  ("description", Js.get_opt v "description")] in
        convertEntries rest (Js.set_prop key property properties) (required ++ [key])
      else convertEntries rest properties required
  end.

Definition emptySchema : Js.value :=
  Js.Obj [("type", Js.Str "object"); ("properties", Js.Obj [])].

(** The body of the interception up to [tools.push]: the [inputSchema] it
    stores for a call. *)
Definition convertSchema (tc : ToolCall) : Completion Js.value :=
  let inputSchema :=
    match tc_schema tc with
    | Some schema => schema
    | None => Js.Obj []
    end in
  if Js.truthy inputSchema && Js.typeof_object inputSchema && negb (Js.isArray inputSchema)
  then
    match inputSchema with
    | Js.Obj fields =>
        let '(properties, required) := convertEntries fields [] [] in
        Normal (Js.Obj [("type", Js.Str "object");
                        ("properties", Js.Obj properties);
                        ("required",
                         if Nat.ltb 0 (List.length required)
                         then Js.Arr (map Js.Str required)
                         else Js.Undefined)])
    | _ => Normal inputSchema
    end
  else
    match Js.keys_length inputSchema with
    | inl e => Throw e
    | inr n => if Nat.eqb n 0 then Normal emptySchema else Normal inputSchema
    end.

Definition recordTool (tools : list ToolDefinition) (tc : ToolCall)
  : Completion (list ToolDefinition) :=
  inputSchema <- convertSchema tc ;;
  Normal (tools ++ [mkToolDefinition (tc_name tc) (tc_description tc) inputSchema]).

Definition dummyApi : SmartsheetAPI := mkSmartsheetAPI "" "" true.

Definition getToolDefinitions (M : ToolModules) (allowDeleteTools : bool)
  : Completion (list ToolDefinition) :=
  registerAll recordTool M dummyApi allowDeleteTools [].

(** *** Executing registrar: [executeToolCall] *)

(** A value spliced into a template literal. *)
Definition print (v : Js.value) : Completion string :=
  match Js.to_string v with
  | inr text => Normal text
  | inl e => Throw e
  end.

(** [toolFound] and [toolResult] *)
Definition Execution : Type := (bool * Promise)%type.

Definition executeTool (toolName toolArguments : Js.value) (st : Execution) (tc : ToolCall)
  : Completion Execution :=
  if Js.eq_str toolName (tc_name tc) then
    match tc_handler tc toolArguments with
    | Throws e => Throw e
    | Returns toolResult => Normal (true, toolResult)
    end
  else Normal st.

Definition executeToolCall (M : ToolModules) (apiKey : string) (apiEndpoint : option string)
  (allowDeleteTools : bool) (toolName toolArguments : Js.value) (c : Cache)
  : Awaited Js.value * Cache :=
  let '(api, c') := getApiInstance apiKey apiEndpoint c in
  (match registerAll (executeTool toolName toolArguments) M api allowDeleteTools
           (false, Fulfilled Js.Null) with
   | Throw e => Settled (Throw e)
   | Normal (toolFound, toolResult) =>
       if negb toolFound then
         Settled (text <- print toolName ;;
                  Throw (Js.mkError ("Tool not found: " ++ text)))
       else match toolResult with
            | Fulfilled v => Settled (Normal v)
            | Rejected e => Settled (Throw e)
            | Pending => Unsettled
            end
   end,
   c').

(** ** The [POST /mcp] route *)

(** A property read inside a [try] block. *)
Definition read (v : Js.value) (prop : string) : Completion Js.value :=
  match Js.get v prop with
  | inr x => Normal x
  | inl e => Throw e
  end.

(** [req.headers['x-allow-delete-tools'] === 'true'] *)
Definition allowDeleteToolsOf (req : Request) : bool :=
  match header req "x-allow-delete-tools" with
  | Some v => String.eqb v "true"
  | None => false
  end.

(** What the client gets from the route handler: a response; nothing from
    this handler when an exception leaves it; nothing at all while the
    handler awaits a promise that never settles. *)
Inductive Outcome : Type :=
| Sent (res : Response)
| Escaped (e : Js.value)
| NoReply.

Section Router.

Variable cfg : Config.
Variable M : ToolModules.

(** The [tools/call] branch, once the API key header is known to be there. *)
Definition callTool (req : Request) (apiKey : string) (params requestId : Js.value)
  (c : Cache) : Awaited Response * Cache :=
  let apiEndpoint := header req "x-smartsheet-endpoint" in
  let allowDeleteTools := allowDeleteToolsOf req in
  match
    (toolName <- read params "name" ;;
     arguments <- read params "arguments" ;;
     Normal (toolName, Js.or_else arguments (Js.Obj [])))
  with
  | Throw e => (Settled (Throw e), c)
  | Normal (toolName, toolArguments) =>
      match executeToolCall M apiKey apiEndpoint allowDeleteTools toolName toolArguments c with
      | (Settled (Normal result), c') =>
          (Settled (Normal (json (Success (CallResult result) requestId))), c')
      | (Settled (Throw error), c') =>
          (* the inner [catch], which first logs
             [`Error calling tool ${toolName}:`] *)
          (Settled
             (_ <- print toolName ;;
              message <- read error "message" ;;
              text <- print message ;;
              Normal (json (Failure (-32603) ("Tool execution error: " ++ text)
                              requestId))),
           c')
      | (Unsettled, c') => (Unsettled, c')
      end
  end.

(** "Route to appropriate handler based on method": the chain of
    comparisons on [method]. *)
Definition route (req : Request) (method params requestId : Js.value) (c : Cache)
  : Awaited Response * Cache :=
  if Js.eq_str method "initialize" then
    (Settled (Normal (json (Success
       (InitializeResult "2024-11-05" "smartsheet" (packageVersion cfg)) requestId))), c)
  else if Js.eq_str method "tools/list" then
    (Settled (tools <- getToolDefinitions M (allowDeleteToolsOf req) ;;
              Normal (json (Success (ToolsResult tools) requestId))), c)
  else if Js.eq_str method "tools/call" then
    let apiKey := header req "x-smartsheet-api-key" in
    match apiKey with
    | Some k =>
        if String.eqb k "" then
          (Settled (Normal (json (Failure (-32602)
             "Missing required header: x-smartsheet-api-key" requestId))), c)
        else callTool req k params requestId c
    | None =>
        (Settled (Normal (json (Failure (-32602)
           "Missing required header: x-smartsheet-api-key" requestId))), c)
    end
  else
    (Settled (text <- print method ;;
              Normal (json (Failure (-32601) ("Method not found: " ++ text) requestId))),
     c).

(** The [try] block of the route handler. *)
Definition dispatch (req : Request) (c : Cache) : Awaited Response * Cache :=
  let body := req_body req in
  if negb (Js.truthy body) || negb (Js.typeof_object body) then
    (Settled (Normal (json (Failure (-32700) "Parse error: Invalid JSON" Js.Null))), c)
  else
    match
      (method <- read body "method" ;;
       params <- read body "params" ;;
       requestId <- read body "id" ;;
       Normal (method, Js.or_else params (Js.Obj []), requestId))
    with
    | Throw e => (Settled (Throw e), c)
    | Normal (method, params, requestId) => route req method params requestId c
    end.

(** [app.post('/mcp', ...)]: the [try] block and its [catch]. *)
Definition postMcp (req : Request) (c : Cache) : Outcome * Cache :=
  match dispatch req c with
  | (Settled (Normal res), c') => (Sent res, c')
  | (Settled (Throw error), c') =>
      match
        (message <- read error "message" ;;
         text <- print message ;;
         Normal (json (Failure (-32603) ("Internal error: " ++ text)
                         (Js.or_else (Js.get_opt (req_body req) "id") Js.Null))))
      with
      | Normal res => (Sent res, c')
      | Throw e => (Escaped e, c')
      end
  | (Unsettled, c') => (NoReply, c')
  end.

(** A [POST /mcp] request whose body [express.json] has let through goes
    through [authMiddleware], then the route.  [req_body] is [req.body] as
    the parser left it; the parser itself and the error handler are in
    [handleMcp] below. *)
Definition serve (req : Request) (c : Cache) : Outcome * Cache :=
  match authMiddleware cfg req with
  | Respond res => (Sent res, c)
  | Next => postMcp req c
  end.

(** The cache after a sequence of requests, oldest first. *)
Fixpoint serveAll (reqs : list Request) (c : Cache) : Cache :=
  match reqs with
  | [] => c
  | req :: rest => serveAll rest (snd (serve req c))
  end.

End Router.

(** ** The auth gate as a decision *)

Inductive Gate : Type :=
| Allow
| Reject (httpStatus code : Z) (message : string).

Definition decision (m : Middleware) : Gate :=
  match m with
  | Next => Allow
  | Respond res =>
      match body res with
      | Failure code message _ => Reject (status res) code message
      | Success _ _ => Allow
      end
  end.

(** The gate in the words of its specification: a missing header is refused
    as missing, any present header that differs from the secret as invalid. *)
Definition specifiedGate (requireAuth : bool) (secretKey : string) (h : option string)
  : Gate :=
  if negb requireAuth then Allow
  else if String.eqb secretKey "" then Allow
  else match h with
       | None => Reject 401 (-32001) "Authentication required for tool execution"
       | Some k =>
           if String.eqb k secretKey then Allow
           else Reject 401 (-32001) "Invalid authentication for tool execution"
       end.

(** The gate the middleware computes: an empty header counts as missing. *)
Definition authGate (requireAuth : bool) (secretKey : string) (h : option string)
  : Gate :=
  if negb requireAuth then Allow
  else if String.eqb secretKey "" then Allow
  else match h with
       | None => Reject 401 (-32001) "Authentication required for tool execution"
       | Some k =>
           if String.eqb k "" then
             Reject 401 (-32001) "Authentication required for tool execution"
           else if String.eqb k secretKey then Allow
           else Reject 401 (-32001) "Invalid authentication for tool execution"
       end.

(** ** Cache invariants *)

Definition keys (m : list Entry) : list string := map entry_key m.

Definition older (a b : Entry) : Prop := entry_seq a < entry_seq b.

(** What holds of every cache the server can reach. *)
Record cache_ok (c : Cache) : Prop := mkCacheOk {
  ok_size : JsMap.size (apiInstances c) <= capacity;
  ok_keys : Forall (fun e => entry_key e <> "") (apiInstances c);
  ok_distinct : NoDup (keys (apiInstances c));
  ok_order : StronglySorted older (apiInstances c);
  ok_seq : Forall (fun e => entry_seq e < insertions c) (apiInstances c)
}.

(** ** Vocabulary for the statements *)

(** The registrations of one sweep, in the order the registrars run them. *)
Definition sweep (M : ToolModules) (api : SmartsheetAPI) (allowDeleteTools : bool)
  : list Registration :=
  [getDiscussionTools M api; getFolderTools M api; getSearchTools M api;
   getSheetTools M api allowDeleteTools; getUpdateRequestTools M api;
   getUserTools M api; getWorkspaceTools M api].

(** A list of registrations run one after the other. *)
Fixpoint registerEach {St : Type} (tool : St -> ToolCall -> Completion St)
  (rs : list Registration) (s : St) : Completion St :=
  match rs with
  | [] => Normal s
  | r :: rest => s' <- register tool r s ;; registerEach tool rest s'
  end.

(** Every [server.tool] call of a sweep that runs to its end. *)
Definition registered (M : ToolModules) (api : SmartsheetAPI) (allowDeleteTools : bool)
  : list ToolCall :=
  flat_map reg_calls (sweep M api allowDeleteTools).

(** No module of the sweep throws. *)
Definition completes (M : ToolModules) (api : SmartsheetAPI) (allowDeleteTools : bool)
  : Prop :=
  Forall (fun r => reg_throws r = None) (sweep M api allowDeleteTools).

(** The same modules with every handler swapped for another one. *)
Definition withHandler (h : ToolCall -> Handler) (tc : ToolCall) : ToolCall :=
  mkToolCall (tc_name tc) (tc_description tc) (tc_schema tc) (h tc).

Definition rehandle (h : ToolCall -> Handler) (r : Registration) : Registration :=
  mkRegistration (map (withHandler h) (reg_calls r)) (reg_throws r).

Definition rewire (h : ToolCall -> Handler) (M : ToolModules) : ToolModules :=
  mkToolModules
    (fun api => rehandle h (getDiscussionTools M api))
    (fun api => rehandle h (getFolderTools M api))
    (fun api => rehandle h (getSearchTools M api))
    (fun api allowDeleteTools => rehandle h (getSheetTools M api allowDeleteTools))
    (fun api => rehandle h (getUpdateRequestTools M api))
    (fun api => rehandle h (getUserTools M api))
    (fun api => rehandle h (getWorkspaceTools M api)).

(** What the recording registrar keeps of one [server.tool] call. *)
Definition recorded (tc : ToolCall) (d : ToolDefinition) : Prop :=
  name d = tc_name tc /\
  description d = tc_description tc /\
  convertSchema tc = Normal (inputSchema d).

(** The tool list a [tools/list] reply carries. *)
Definition listedTools (o : Outcome) : option (list ToolDefinition) :=
  match o with
  | Sent res =>
      match body res with
      | Success (ToolsResult tools) _ => Some tools
      | _ => None
      end
  | Escaped _ | NoReply => None
  end.

(** The fields of a schema that expose a description, with it. *)
Definition describedFields (fields : list (string * Js.value))
  : list (string * Js.value) :=
  map (fun kv => (fst kv, Js.get_opt (snd kv) "description"))
      (filter (fun kv => described (snd kv)) fields).

(** A name that can be given to a property by assignment. *)
Definition assignable (k : string) : bool := negb (String.eqb k "__proto__").

(** The [inputSchema] built from names and descriptions alone.  All names
    are required; the assignable ones are properties. *)
Definition projectedSchema (ds : list (string * Js.value)) : Js.value :=
  Js.Obj [("type", Js.Str "object");
          ("properties",
           Js.Obj (map (fun d => (fst d,
                                  Js.Obj [("type", Js.Str "string");
                                          ("description", snd d)]))
                       (filter (fun d => assignable (fst d)) ds)));
          ("required",
           match ds with
           | [] => Js.Undefined
           | _ => Js.Arr (map (fun d => Js.Str (fst d)) ds)
           end)].

(** The request was let through by the middleware and its handling threw:
    the reply comes from the outer [catch]. *)
Definition internalError (cfg : Config) (M : ToolModules) (req : Request) (c : Cache)
  : bool :=
  match authMiddleware cfg req with
  | Next =>
      match fst (dispatch cfg M req c) with
      | Settled (Throw _) => true
      | Settled (Normal _) | Unsettled => false
      end
  | Respond _ => false
  end.

(** How many calls of a sequence ask for a given cache key. *)
Definition uses (key : string) (calls : list (string * option string)) : nat :=
  List.length
    (filter (fun call => String.eqb (credentialKey (fst call) (snd call)) key) calls).

(** ** Configuration from the environment *)

(** [process.env]: a variable is unset or holds a string. *)
Definition Env : Type := string -> option string.

(** [REQUIRE_AUTH] and [SECRET_KEY] as the server reads them at start-up,
    [process.env.REQUIRE_AUTH !== 'false'] and [process.env.SECRET_KEY || ''];
    the version comes from [package.json]. *)
Definition loadConfig (env : Env) (version : string) : Config :=
  mkConfig
    (negb (match env "REQUIRE_AUTH" with
           | Some v => String.eqb v "false"
           | None => false
           end))
    (endpoint_or (env "SECRET_KEY") "")
    version.

(** ** The [GET /tools] route *)

Inductive ToolsOutcome : Type :=
| Listed (tools : list ToolDefinition)
| ListingFailed (httpStatus : Z) (error : string) (message : Js.value)
| ListingEscaped (e : Js.value).

(** [app.get('/tools', ...)]: the catalog without delete tools, or a 500
    carrying [error.message]. *)
Definition getTools (M : ToolModules) : ToolsOutcome :=
  match getToolDefinitions M false with
  | Normal tools => Listed tools
  | Throw error =>
      match Js.get error "message" with
      | inr message => ListingFailed 500 "Failed to list tools" message
      | inl e => ListingEscaped e
      end
  end.

(** ** The whole stack for [POST /mcp] *)

(** The major version of Express under the server.  The source does not
    pin it, and the two differ in what reaches the route and the error
    handler. *)
Inductive Express : Type :=
| Express4
| Express5.

(** What the body parser of [app.use(express.json({ limit: '10mb' }))] made
    of a request before the other middleware ran.  The parser is the
    library's; in its default, strict mode it hands on objects and arrays
    only. *)
Inductive Parsing : Type :=
| Skipped
  (* no body, or a content type other than JSON: the parser calls [next()] *)
| Refused (err : Js.value)
  (* [next(err)]: text that is not JSON, a primitive, a body over the limit *)
| ParsedObject (fields : list (string * Js.value))
| ParsedArray (items : list Js.value).

Record Incoming : Type := mkIncoming {
  in_headers : list (string * string);
  in_parsing : Parsing
}.

(** [req.body] of a request the parser skipped: the empty object under
    Express 4, [undefined] under Express 5. *)
Definition unparsedBody (express : Express) : Js.value :=
  match express with
  | Express4 => Js.Obj []
  | Express5 => Js.Undefined
  end.

(** The request as the parser hands it on, or the error it passes to
    [next]. *)
Definition expressJson (express : Express) (r : Incoming) : Request + Js.value :=
  let handOn (body : Js.value) := inl (mkRequest "POST" "/mcp" (in_headers r) body) in
  match in_parsing r with
  | Skipped => handOn (unparsedBody express)
  | Refused err => inr err
  | ParsedObject fields => handOn (Js.Obj fields)
  | ParsedArray items => handOn (Js.Arr items)
  end.

Inductive StackOutcome : Type :=
| Routed (o : Outcome)
| ServerError (httpStatus : Z) (error : string) (message : Js.value)
| Uncaught (e : Js.value).

(** The error handler, [app.use((err, req, res, next) => ...)]. *)
Definition errorHandler (err : Js.value) : StackOutcome :=
  match Js.get err "message" with
  | inr message => ServerError 500 "Internal Server Error" message
  | inl e => Uncaught e
  end.

(** What Express makes of the route handler's outcome.  The handler is an
    async function, so an exception that leaves it rejects the promise it
    returned: Express 4 does not look at the promise, Express 5 passes the
    rejection on as [next(error || new Error('Rejected promise'))]. *)
Definition settle (express : Express) (o : Outcome) : StackOutcome :=
  match express, o with
  | Express5, Escaped e => errorHandler (Js.or_else e (Js.mkError "Rejected promise"))
  | _, _ => Routed o
  end.

(** A [POST /mcp] request through [express.json], [authMiddleware], the
    route and the error handler. *)
Definition handleMcp (express : Express) (cfg : Config) (M : ToolModules)
  (r : Incoming) (c : Cache) : StackOutcome * Cache :=
  match expressJson express r with
  | inr err => (errorHandler err, c)
  | inl req =>
      let '(o, c') := serve cfg M req c in
      (settle express o, c')
  end.

(** ** More vocabulary *)

(** The error code of a reply, if it is an error. *)
Definition errorCode (r : Reply) : option Z :=
  match r with
  | Failure code _ _ => Some code
  | Success _ _ => None
  end.

(** No colon in a string. *)
Fixpoint colonFree (s : string) : bool :=
  match s with
  | EmptyString => true
  | String ch rest => negb (Ascii.eqb ch ":") && colonFree rest
  end.

(** ** Sample deployments used to exercise the statements *)

Module Sample.

Definition config : Config := mkConfig true "s3cret" "1.0.0".

Definition described_field (text : string) : Js.value :=
  Js.Obj [("description", Js.Str text); ("min", Js.Num 1)].

Definition reply (text : string) : Handler :=
  fun _ => Returns (Fulfilled (Js.Obj [("content", Js.Str text)])).

Definition get_sheet : ToolCall :=
  mkToolCall "get_sheet" "Retrieves a sheet"
    (Some (Js.Obj [("sheetId", described_field "The ID of the sheet");
                   ("pageSize", Js.Num 50);
                   ("include", described_field "What to include")]))
    (reply "sheet").

Definition delete_rows : ToolCall :=
  mkToolCall "delete_rows" "Deletes rows"
    (Some (Js.Obj [("rowIds", described_field "Rows to delete")]))
    (reply "deleted").

Definition get_current_user : ToolCall :=
  mkToolCall "get_current_user" "Gets the current user" None (reply "user").

Definition none : Registration := mkRegistration [] None.

Definition modules : ToolModules :=
  mkToolModules
    (fun _ => none)
    (fun _ => none)
    (fun _ => none)
    (fun _ allowDeleteTools =>
       mkRegistration (if allowDeleteTools then [get_sheet; delete_rows] else [get_sheet])
         None)
    (fun _ => none)
    (fun _ => mkRegistration [get_current_user] None)
    (fun _ => none).

(** As [modules], with a folder module that throws while registering. *)
Definition failingModules : ToolModules :=
  mkToolModules
    (fun _ => none)
    (fun _ => mkRegistration [] (Some (Js.mkError "folder tools unavailable")))
    (fun _ => none)
    (fun _ _ => mkRegistration [get_sheet] None)
    (fun _ => none)
    (fun _ => mkRegistration [get_current_user] None)
    (fun _ => none).

Definition rpc (method : string) (id : Js.value) : Js.value :=
  Js.Obj [("jsonrpc", Js.Str "2.0"); ("method", Js.Str method);
          ("params", Js.Obj []); ("id", id)].

Definition call (toolName : string) (id : Js.value) : Js.value :=
  Js.Obj [("jsonrpc", Js.Str "2.0"); ("method", Js.Str "tools/call");
          ("params", Js.Obj [("name", Js.Str toolName); ("arguments", Js.Obj [])]);
          ("id", id)].

Definition post (headers : list (string * string)) (body : Js.value) : Request :=
  mkRequest "POST" "/mcp" headers body.

(** One hundred and one tenants, [tenant 0] being the busy one. *)
Definition tenant (n : nat) : string * option string :=
  (("token-" ++ Js.string_of_Z (Z.of_nat n))%string, None).

Definition busyTraffic : list (string * option string) :=
  map tenant (seq 0 100) ++ repeat (tenant 0) 5 ++ [tenant 100].

End Sample.

(** ** Further sample deployments *)

Module Scenario.

(** A user module that throws [null] while registering. *)
Definition nullThrowingModules : ToolModules :=
  mkToolModules
    (fun _ => Sample.none)
    (fun _ => Sample.none)
    (fun _ => Sample.none)
    (fun _ _ => mkRegistration [Sample.get_sheet] None)
    (fun _ => Sample.none)
    (fun _ => mkRegistration [] (Some Js.Null))
    (fun _ => Sample.none).

(** A tool whose handler rejects with an [Error]. *)
Definition share_sheet : ToolCall :=
  mkToolCall "share_sheet" "Shares a sheet" None
    (fun _ => Returns (Rejected (Js.mkError "403 Forbidden"))).

(** A second registration of [get_sheet], shadowing the first. *)
Definition get_sheet_v2 : ToolCall :=
  mkToolCall "get_sheet" "Retrieves a sheet, with attachments"
    (Some (Js.Obj [("sheetId", Sample.described_field "The ID of the sheet")]))
    (Sample.reply "sheet with attachments").

Definition modules : ToolModules :=
  mkToolModules
    (fun _ => Sample.none)
    (fun _ => Sample.none)
    (fun _ => Sample.none)
    (fun _ _ => mkRegistration [Sample.get_sheet; share_sheet; get_sheet_v2] None)
    (fun _ => Sample.none)
    (fun _ => mkRegistration [Sample.get_current_user] None)
    (fun _ => Sample.none).

(** A tool registered with [null] where the schema goes. *)
Definition untyped : ToolCall :=
  mkToolCall "untyped" "Registered with a null schema" (Some Js.Null) (Sample.reply "ok").

Definition nullSchemaModules : ToolModules :=
  mkToolModules
    (fun _ => Sample.none)
    (fun _ => Sample.none)
    (fun _ => Sample.none)
    (fun _ _ => mkRegistration [Sample.get_sheet; untyped] None)
    (fun _ => Sample.none)
    (fun _ => Sample.none)
    (fun _ => Sample.none).



(** A tool whose handler returns a promise that never settles. *)
Definition export_sheet : ToolCall :=
  mkToolCall "export_sheet" "Exports a sheet" None (fun _ => Returns Pending).

Definition hangingModules : ToolModules :=
  mkToolModules
    (fun _ => Sample.none)
    (fun _ => Sample.none)
    (fun _ => Sample.none)
    (fun _ _ => mkRegistration [Sample.get_sheet; export_sheet] None)
    (fun _ => Sample.none)
    (fun _ => Sample.none)
    (fun _ => Sample.none).

Definition authorized (toolName : string) (id : Js.value) : Request :=
  Sample.post [("x-secret-key", "s3cret"); ("x-smartsheet-api-key", "token-1")]
    (Sample.call toolName id).

End Scenario.

(** * Properties *)

(** ** Auth gate *)

Lemma header_falsy_spec (h : option string) :
  header_falsy h = match h with None => true | Some k => String.eqb k "" end.
Proof. destruct h; reflexivity. Qed.

(** C1 (as the middleware decides): on a [POST /mcp] request whose body has
    method [tools/call], the decision is the function [authGate] of
    [REQUIRE_AUTH], [SECRET_KEY] and the [x-secret-key] header: allow when
    auth is off or no secret is configured; otherwise HTTP 401 with error
    -32001 "Authentication required for tool execution" when the header is
    missing or empty, HTTP 401 with error -32001 "Invalid authentication for
    tool execution" when it is non-empty and differs from the secret, and
    allow when it equals the secret. *)
Theorem authMiddleware_gate (cfg : Config) (req : Request) :
  req_path req = "/mcp" ->
  req_method req = "POST" ->
  Js.get_opt (req_body req) "method" = Js.Str "tools/call" ->
  decision (authMiddleware cfg req)
  = authGate (REQUIRE_AUTH cfg) (SECRET_KEY cfg) (header req "x-secret-key").
Proof.
  intros Hpath Hverb Hmethod.
  unfold authMiddleware, authGate.
  rewrite Hpath, Hverb, Hmethod. cbn [Js.eq_str].
  destruct (REQUIRE_AUTH cfg); cbn [negb]; [ | reflexivity ].
  destruct (String.eqb (SECRET_KEY cfg) "") eqn:Hsecret; [ reflexivity | ].
  change (("/mcp" =? "/mcp") && ("POST" =? "POST"))%string with true.
  change ("tools/call" =? "tools/call")%string with true.
  cbv iota.
  rewrite header_falsy_spec.
  destruct (header req "x-secret-key") as [k | ]; [ | reflexivity ].
  destruct (String.eqb k "") eqn:Hempty; [ reflexivity | ].
  destruct (String.eqb k (SECRET_KEY cfg)); reflexivity.
Qed.

Lemma authMiddleware_gate_witness :
  let req := Sample.post [("x-secret-key", "guess")] (Sample.call "get_sheet" (Js.Num 7)) in
  req_path req = "/mcp" /\ req_method req = "POST" /\
  Js.get_opt (req_body req) "method" = Js.Str "tools/call" /\
  decision (authMiddleware Sample.config req)
  = Reject 401 (-32001) "Invalid authentication for tool execution".
Proof.
  intro req.
  split; [ reflexivity | split; [ reflexivity | split; [ reflexivity | ] ] ].
  rewrite (authMiddleware_gate Sample.config req); reflexivity.
Defined.

(** C1 (as specified) fails on a header sent with an empty value: it is
    present and differs from the secret, yet the refusal reads
    "Authentication required", not "Invalid authentication". *)
Lemma authMiddleware_empty_header :
  let req := Sample.post [("x-secret-key", "")] (Sample.call "get_sheet" (Js.Num 7)) in
  header req "x-secret-key" = Some "" /\
  SECRET_KEY Sample.config <> "" /\
  authMiddleware Sample.config req
  = Respond (mkResponse 401
      (Failure (-32001) "Authentication required for tool execution" (Js.Num 7))) /\
  decision (authMiddleware Sample.config req)
  <> specifiedGate (REQUIRE_AUTH Sample.config) (SECRET_KEY Sample.config)
       (header req "x-secret-key").
Proof.
  intro req. repeat split; try discriminate.
Qed.

(** ** Client cache *)

Ltac string_cases :=
  repeat match goal with
  | H : String.eqb _ _ = true |- _ => apply String.eqb_eq in H; subst
  | H : String.eqb _ _ = false |- _ => apply String.eqb_neq in H
  | |- context [String.eqb ?a ?a] => rewrite (String.eqb_refl a)
  end.

(** Case analysis on the reads and prints of a [catch] block. *)
Ltac catch_cases :=
  unfold read, print;
  repeat match goal with
         | |- context [match Js.get ?e ?p with _ => _ end] =>
             destruct (Js.get e p); cbn [bind]
         | |- context [match Js.to_string ?m with _ => _ end] =>
             destruct (Js.to_string m); cbn [bind]
         end.

Lemma credentialKey_nonempty (apiKey : string) (apiEndpoint : option string) :
  credentialKey apiKey apiEndpoint <> "".
Proof.
  unfold credentialKey. destruct apiKey; discriminate.
Qed.

Lemma get_None_keys (k : string) (m : list Entry) :
  JsMap.get k m = None <-> ~ In k (keys m).
Proof.
  induction m as [ | e m IH ]; cbn.
  - split; [ intros _ [] | reflexivity ].
  - destruct (String.eqb k (entry_key e)) eqn:E; string_cases.
    + split; [ discriminate | intros H; exfalso; apply H; now left ].
    + rewrite IH. split.
      * intros H [H' | H']; [ now apply E | now apply H ].
      * intros H H'. apply H. now right.
Qed.

Lemma set_absent (k : string) (v : SmartsheetAPI) (seq : nat) (m : list Entry) :
  JsMap.get k m = None -> JsMap.set k v seq m = m ++ [mkEntry k v seq].
Proof.
  induction m as [ | e m IH ]; cbn; [ reflexivity | ].
  destruct (String.eqb k (entry_key e)); [ discriminate | ].
  intros H. now rewrite IH.
Qed.

Lemma get_last (k : string) (v : SmartsheetAPI) (seq : nat) (m : list Entry) :
  JsMap.get k m = None -> JsMap.get k (m ++ [mkEntry k v seq]) = Some v.
Proof.
  induction m as [ | e m IH ]; cbn.
  - now rewrite String.eqb_refl.
  - destruct (String.eqb k (entry_key e)); [ discriminate | exact IH ].
Qed.

Lemma get_delete_other (k k' : string) (m : list Entry) :
  k <> k' -> JsMap.get k (JsMap.delete k' m) = JsMap.get k m.
Proof.
  intros Hne. induction m as [ | e m IH ]; cbn; [ reflexivity | ].
  destruct (String.eqb k' (entry_key e)) eqn:E'; string_cases.
  - destruct (String.eqb k (entry_key e)) eqn:E; string_cases; [ contradiction | reflexivity ].
  - cbn. now rewrite IH.
Qed.

(** A hit hands back the stored client and leaves the cache as it was. *)
Lemma getApiInstance_hit (apiKey : string) (apiEndpoint : option string) (c : Cache)
  (api : SmartsheetAPI) :
  JsMap.get (credentialKey apiKey apiEndpoint) (apiInstances c) = Some api ->
  getApiInstance apiKey apiEndpoint c = (api, c).
Proof.
  intros H. unfold getApiInstance. now rewrite H.
Qed.

(** A miss appends the new client; at capacity the head of the map goes. *)
Lemma getApiInstance_miss (apiKey : string) (apiEndpoint : option string) (c : Cache) :
  JsMap.get (credentialKey apiKey apiEndpoint) (apiInstances c) = None ->
  Forall (fun e => entry_key e <> "") (apiInstances c) ->
  let api :=
    mkSmartsheetAPI apiKey (endpoint_or apiEndpoint "https://api.smartsheet.com/2.0") true in
  let fresh := mkEntry (credentialKey apiKey apiEndpoint) api (insertions c) in
  getApiInstance apiKey apiEndpoint c
  = (api,
     mkCache (if Nat.leb capacity (JsMap.size (apiInstances c))
              then tl (apiInstances c) ++ [fresh]
              else apiInstances c ++ [fresh])
             (S (insertions c))).
Proof.
  intros Hget Hkeys api fresh. unfold getApiInstance. rewrite Hget.
  rewrite (set_absent _ _ _ _ Hget). fold api. fold fresh.
  f_equal. f_equal.
  unfold JsMap.size. rewrite length_app. cbn [List.length].
  replace (Nat.ltb capacity (List.length (apiInstances c) + 1))
    with (Nat.leb capacity (List.length (apiInstances c))).
  2:{ destruct (Nat.leb_spec capacity (List.length (apiInstances c)));
      destruct (Nat.ltb_spec capacity (List.length (apiInstances c) + 1));
      try reflexivity; lia. }
  destruct (Nat.leb capacity (List.length (apiInstances c))) eqn:Hfull; [ | reflexivity ].
  destruct (apiInstances c) as [ | oldest rest ].
  - apply Nat.leb_le in Hfull. unfold capacity in Hfull. cbn in Hfull. lia.
  - cbn [app JsMap.firstKey tl].
    inversion Hkeys as [ | ? ? Hhead _ ]; subst.
    apply String.eqb_neq in Hhead. rewrite Hhead. cbn [negb JsMap.delete].
    now rewrite String.eqb_refl.
Qed.

(** The client just asked for is in the cache when the call returns. *)
Lemma getApiInstance_cached (apiKey : string) (apiEndpoint : option string) (c : Cache) :
  JsMap.get (credentialKey apiKey apiEndpoint)
    (apiInstances (snd (getApiInstance apiKey apiEndpoint c)))
  = Some (fst (getApiInstance apiKey apiEndpoint c)).
Proof.
  unfold getApiInstance.
  destruct (JsMap.get (credentialKey apiKey apiEndpoint) (apiInstances c)) eqn:Hget;
    [ exact Hget | ].
  cbn [fst snd apiInstances].
  rewrite (set_absent _ _ _ _ Hget).
  set (fresh := mkEntry _ _ _).
  destruct (Nat.ltb capacity (JsMap.size (apiInstances c ++ [fresh]))) eqn:Hfull;
    [ | now apply get_last ].
  destruct (apiInstances c) as [ | oldest rest ] eqn:Hm.
  - cbn in Hfull. discriminate.
  - cbn [app JsMap.firstKey].
    destruct (String.eqb (entry_key oldest) "") eqn:Hempty; cbn [negb].
    + apply (get_last _ _ _ (oldest :: rest) Hget).
    + rewrite get_delete_other.
      * apply (get_last _ _ _ (oldest :: rest) Hget).
      * apply get_None_keys in Hget. intros Heq. apply Hget. left. now symmetry.
Qed.

Lemma StronglySorted_snoc (m : list Entry) (fresh : Entry) :
  StronglySorted older m ->
  Forall (fun e => older e fresh) m ->
  StronglySorted older (m ++ [fresh]).
Proof.
  induction 1 as [ | e m Hm IH He ]; intros Hall; cbn.
  - repeat constructor.
  - inversion Hall as [ | ? ? Hhead Htail ]; subst.
    constructor; [ now apply IH | ].
    apply Forall_app. split; [ exact He | now constructor ].
Qed.

Lemma cache_ok_empty : cache_ok emptyCache.
Proof.
  constructor; cbn; try constructor. unfold capacity. lia.
Qed.

Lemma cache_ok_tl (m : list Entry) (n : nat) :
  cache_ok (mkCache m n) -> cache_ok (mkCache (tl m) n).
Proof.
  intros [Hsize Hkeys Hdistinct Horder Hseq]; cbn in *.
  destruct m as [ | e m ]; cbn in *; constructor; cbn; try assumption.
  - unfold JsMap.size in *. cbn in Hsize. lia.
  - now inversion Hkeys.
  - now inversion Hdistinct.
  - now inversion Horder.
  - now inversion Hseq.
Qed.

(** [getApiInstance] keeps the invariant. *)
Lemma getApiInstance_ok (apiKey : string) (apiEndpoint : option string) (c : Cache) :
  cache_ok c -> cache_ok (snd (getApiInstance apiKey apiEndpoint c)).
Proof.
  intros Hok.
  destruct (JsMap.get (credentialKey apiKey apiEndpoint) (apiInstances c)) as [api | ] eqn:Hget.
  - now rewrite (getApiInstance_hit _ _ _ _ Hget).
  - rewrite (getApiInstance_miss _ _ _ Hget (ok_keys _ Hok)). cbn [snd].
    set (fresh := mkEntry _ _ _).
    assert (Hgrow : forall m,
               cache_ok (mkCache m (insertions c)) ->
               ~ In (entry_key fresh) (keys m) ->
               JsMap.size m < capacity ->
               cache_ok (mkCache (m ++ [fresh]) (S (insertions c)))).
    { intros m [Hsize Hkeys Hdistinct Horder Hseq] Hnew Hroom; cbn in *.
      constructor; cbn.
      - unfold JsMap.size in *. rewrite length_app. cbn. lia.
      - apply Forall_app. split; [ exact Hkeys | ].
        constructor; [ apply credentialKey_nonempty | constructor ].
      - unfold keys. rewrite map_app. cbn.
        apply NoDup_app; [ exact Hdistinct | repeat constructor; intros [] | ].
        intros k Hin [Heq | []]. subst k. now apply Hnew.
      - apply StronglySorted_snoc; [ exact Horder | exact Hseq ].
      - apply Forall_app. split.
        + eapply Forall_impl; [ | exact Hseq ]. cbn. intros; lia.
        + constructor; [ cbn; lia | constructor ]. }
    apply get_None_keys in Hget.
    destruct (Nat.leb_spec capacity (JsMap.size (apiInstances c))) as [Hfull | Hroom].
    + apply Hgrow.
      * apply cache_ok_tl. now destruct c.
      * intros Hin. apply Hget.
        destruct (apiInstances c); [ exact Hin | now right ].
      * pose proof (ok_size _ Hok) as Hsize. unfold JsMap.size in *.
        destruct (apiInstances c); cbn in *; [ unfold capacity in *; lia | lia ].
    + apply Hgrow; [ now destruct c | exact Hget | exact Hroom ].
Qed.

(** The bound is reached: a hundred and one tenants leave a hundred clients. *)
Example cache_fills_up :
  JsMap.size (apiInstances (getApiInstances (map Sample.tenant (seq 0 101)) emptyCache))
  = 100.
Proof. vm_compute. reflexivity. Qed.

Lemma getApiInstances_ok (calls : list (string * option string)) (c : Cache) :
  cache_ok c -> cache_ok (getApiInstances calls c).
Proof.
  revert c. induction calls as [ | [apiKey apiEndpoint] calls IH ]; intros c Hok; cbn.
  - exact Hok.
  - apply IH. now apply getApiInstance_ok.
Qed.

(** The route touches the cache through [getApiInstance] only. *)
Lemma executeToolCall_cache (M : ToolModules) (apiKey : string)
  (apiEndpoint : option string) (allowDeleteTools : bool) (toolName toolArguments : Js.value)
  (c : Cache) :
  snd (executeToolCall M apiKey apiEndpoint allowDeleteTools toolName toolArguments c)
  = snd (getApiInstance apiKey apiEndpoint c).
Proof.
  unfold executeToolCall. now destruct (getApiInstance apiKey apiEndpoint c).
Qed.

Lemma callTool_cache (M : ToolModules) (req : Request) (apiKey : string)
  (params requestId : Js.value) (c : Cache) :
  snd (callTool M req apiKey params requestId c) = c \/
  snd (callTool M req apiKey params requestId c)
  = snd (getApiInstance apiKey (header req "x-smartsheet-endpoint") c).
Proof.
  unfold callTool.
  destruct (read params "name") as [toolName | e]; cbn [bind]; [ | now left ].
  destruct (read params "arguments") as [arguments | e]; cbn [bind]; [ | now left ].
  right.
  rewrite <- (executeToolCall_cache M apiKey (header req "x-smartsheet-endpoint")
                (allowDeleteToolsOf req) toolName (Js.or_else arguments (Js.Obj [])) c).
  now destruct (executeToolCall _ _ _ _ _ _ _) as [[[result | error] | ] c'].
Qed.

Lemma dispatch_cache (cfg : Config) (M : ToolModules) (req : Request) (c : Cache) :
  snd (dispatch cfg M req c) = c \/
  exists apiKey apiEndpoint,
    snd (dispatch cfg M req c) = snd (getApiInstance apiKey apiEndpoint c).
Proof.
  unfold dispatch.
  destruct (negb (Js.truthy (req_body req)) || negb (Js.typeof_object (req_body req)));
    [ now left | ].
  destruct (read (req_body req) "method") as [method | e]; cbn [bind]; [ | now left ].
  destruct (read (req_body req) "params") as [params | e]; cbn [bind]; [ | now left ].
  destruct (read (req_body req) "id") as [requestId | e]; cbn [bind]; [ | now left ].
  unfold route.
  destruct (Js.eq_str method "initialize"); [ now left | ].
  destruct (Js.eq_str method "tools/list"); [ now left | ].
  destruct (Js.eq_str method "tools/call"); [ | now left ].
  destruct (header req "x-smartsheet-api-key") as [k | ]; [ | now left ].
  destruct (String.eqb k ""); [ now left | ].
  destruct (callTool_cache M req k (Js.or_else params (Js.Obj [])) requestId c) as [H | H].
  - now left.
  - right. eauto.
Qed.

Lemma serve_cache (cfg : Config) (M : ToolModules) (req : Request) (c : Cache) :
  snd (serve cfg M req c) = c \/
  exists apiKey apiEndpoint,
    snd (serve cfg M req c) = snd (getApiInstance apiKey apiEndpoint c).
Proof.
  unfold serve. destruct (authMiddleware cfg req); [ | now left ].
  unfold postMcp.
  pose proof (dispatch_cache cfg M req c) as H.
  destruct (dispatch cfg M req c) as [[[res | error] | ] c']; cbn [snd] in *;
    try exact H.
  now destruct (bind _ _).
Qed.

Lemma serveAll_ok (cfg : Config) (M : ToolModules) (reqs : list Request) (c : Cache) :
  cache_ok c -> cache_ok (serveAll cfg M reqs c).
Proof.
  revert c. induction reqs as [ | req reqs IH ]; intros c Hok; cbn; [ exact Hok | ].
  apply IH.
  destruct (serve_cache cfg M req c) as [H | (apiKey & apiEndpoint & H)]; rewrite H.
  - exact Hok.
  - now apply getApiInstance_ok.
Qed.

(** C2: after any sequence of [getApiInstance] calls on the empty cache,
    and after any sequence of [POST /mcp] requests served from it, the cache
    holds at most 100 entries, with pairwise distinct keys. *)
Theorem cache_never_exceeds_capacity :
  (forall calls : list (string * option string),
     let c := getApiInstances calls emptyCache in
     JsMap.size (apiInstances c) <= 100 /\ NoDup (keys (apiInstances c))) /\
  (forall (cfg : Config) (M : ToolModules) (reqs : list Request),
     let c := serveAll cfg M reqs emptyCache in
     JsMap.size (apiInstances c) <= 100 /\ NoDup (keys (apiInstances c))).
Proof.
  split.
  - intros calls c.
    pose proof (getApiInstances_ok calls emptyCache cache_ok_empty) as Hok.
    split; [ apply (ok_size _ Hok) | apply (ok_distinct _ Hok) ].
  - intros cfg M reqs c.
    pose proof (serveAll_ok cfg M reqs emptyCache cache_ok_empty) as Hok.
    split; [ apply (ok_size _ Hok) | apply (ok_distinct _ Hok) ].
Qed.

(** C3: eviction follows insertion order.  A miss on a full cache drops the
    entry at the head of the map, which is older than every other entry,
    and appends the new client; a hit returns the stored client and leaves
    the cache, order included, untouched; and in some traffic a key asked
    for six times is evicted while a key asked for once, and inserted after
    it, stays. *)
Theorem cache_eviction_is_fifo :
  (forall (calls : list (string * option string)) (apiKey : string)
          (apiEndpoint : option string),
     let c := getApiInstances calls emptyCache in
     let key := credentialKey apiKey apiEndpoint in
     JsMap.get key (apiInstances c) = None ->
     capacity <= JsMap.size (apiInstances c) ->
     exists oldest rest api,
       apiInstances c = oldest :: rest /\
       Forall (older oldest) rest /\
       getApiInstance apiKey apiEndpoint c
       = (api, mkCache (rest ++ [mkEntry key api (insertions c)]) (S (insertions c)))) /\
  (forall (c : Cache) (apiKey : string) (apiEndpoint : option string) (api : SmartsheetAPI),
     JsMap.get (credentialKey apiKey apiEndpoint) (apiInstances c) = Some api ->
     getApiInstance apiKey apiEndpoint c = (api, c)) /\
  (exists (calls : list (string * option string)) (busy once : string),
     uses busy calls = 6 /\ uses once calls = 1 /\
     (exists earlier later,
        calls = earlier ++ later /\
        JsMap.get busy (apiInstances (getApiInstances earlier emptyCache)) <> None /\
        JsMap.get once (apiInstances (getApiInstances earlier emptyCache)) = None) /\
     JsMap.get busy (apiInstances (getApiInstances calls emptyCache)) = None /\
     JsMap.get once (apiInstances (getApiInstances calls emptyCache)) <> None).
Proof.
  split; [ | split ].
  - intros calls apiKey apiEndpoint c key Hget Hfull.
    pose proof (getApiInstances_ok calls emptyCache cache_ok_empty) as Hok.
    fold c in Hok.
    pose proof (getApiInstance_miss apiKey apiEndpoint c Hget (ok_keys _ Hok)) as Hmiss.
    cbv zeta in Hmiss.
    apply Nat.leb_le in Hfull. rewrite Hfull in Hmiss.
    pose proof (ok_order _ Hok) as Horder.
    destruct (apiInstances c) as [ | oldest rest ]; [ discriminate Hfull | ].
    exists oldest, rest. eexists.
    split; [ reflexivity | split ].
    + now inversion Horder.
    + exact Hmiss.
  - intros c apiKey apiEndpoint api. apply getApiInstance_hit.
  - exists Sample.busyTraffic, "token-0:default", "token-1:default".
    split; [ vm_compute; reflexivity | ].
    split; [ vm_compute; reflexivity | ].
    split.
    + exists [Sample.tenant 0], (tl Sample.busyTraffic).
      split; [ vm_compute; reflexivity | ].
      split; [ vm_compute; discriminate | vm_compute; reflexivity ].
    + split; [ vm_compute; reflexivity | vm_compute; discriminate ].
Qed.

Lemma cache_eviction_is_fifo_witness :
  let calls := map Sample.tenant (seq 0 100) in
  let c := getApiInstances calls emptyCache in
  JsMap.get (credentialKey "token-100" None) (apiInstances c) = None /\
  capacity <= JsMap.size (apiInstances c) /\
  JsMap.firstKey (apiInstances c) = Some "token-0:default" /\
  JsMap.firstKey (apiInstances (snd (getApiInstance "token-100" None c)))
  = Some "token-1:default".
Proof.
  intros calls c.
  assert (Hget : JsMap.get (credentialKey "token-100" None) (apiInstances c) = None)
    by (vm_compute; reflexivity).
  assert (Hfull : capacity <= JsMap.size (apiInstances c))
    by (apply Nat.leb_le; vm_compute; reflexivity).
  split; [ exact Hget | split; [ exact Hfull | ] ].
  destruct (proj1 cache_eviction_is_fifo calls "token-100" None Hget Hfull)
    as (oldest & rest & api & Hc & _ & Hcall).
  split; [ vm_compute; reflexivity | ].
  fold c in Hcall. rewrite Hcall. cbn [snd apiInstances].
  assert (Hrest : rest = tl (apiInstances c)) by (fold c in Hc; now rewrite Hc).
  rewrite Hrest. vm_compute. reflexivity.
Defined.

(** C10: the cache key is the API key, a colon, and the endpoint, or the
    word [default] when the endpoint is absent or empty.  The key does not
    determine the pair: two different pairs share a key, and whatever the
    cache has seen, the second of them is served the client of the first;
    on an empty cache that client carries the first pair's API key. *)
Theorem credentialKey_not_injective :
  (forall (apiKey : string) (apiEndpoint : option string),
     credentialKey apiKey apiEndpoint
     = (apiKey ++ ":" ++ match apiEndpoint with
                         | None | Some "" => "default"
                         | Some e => e
                         end)%string) /\
  (exists (apiKey1 apiKey2 : string) (apiEndpoint1 apiEndpoint2 : option string),
     (apiKey1, apiEndpoint1) <> (apiKey2, apiEndpoint2) /\
     credentialKey apiKey1 apiEndpoint1 = credentialKey apiKey2 apiEndpoint2 /\
     (forall calls : list (string * option string),
        let c := getApiInstances calls emptyCache in
        let first := getApiInstance apiKey1 apiEndpoint1 c in
        let second := getApiInstance apiKey2 apiEndpoint2 (snd first) in
        fst second = fst first /\ snd second = snd first) /\
     accessToken
       (fst (getApiInstance apiKey2 apiEndpoint2
               (snd (getApiInstance apiKey1 apiEndpoint1 emptyCache))))
     = apiKey1 /\
     apiKey1 <> apiKey2).
Proof.
  split.
  - intros apiKey [[ | ch e] | ]; reflexivity.
  - exists "team:eu", "team", (Some "prod"), (Some "eu:prod").
    split; [ discriminate | ].
    assert (Hkey : credentialKey "team:eu" (Some "prod") = credentialKey "team" (Some "eu:prod"))
      by reflexivity.
    split; [ exact Hkey | ].
    split; [ | split; [ reflexivity | discriminate ] ].
    intros calls c first second.
    pose proof (getApiInstance_cached "team:eu" (Some "prod") c) as Hcached.
    fold first in Hcached. rewrite Hkey in Hcached.
    unfold second. rewrite (getApiInstance_hit _ _ _ _ Hcached). split; reflexivity.
Qed.

(** ** Router *)

Lemma get_opt_Str (v : Js.value) (prop s : string) :
  Js.get_opt v prop = Js.Str s -> exists fields, v = Js.Obj fields.
Proof.
  destruct v; try discriminate. intros _. eauto.
Qed.

(** On an object body the three reads succeed and the request is routed. *)
Lemma dispatch_object (cfg : Config) (M : ToolModules) (req : Request) (c : Cache)
  (fields : list (string * Js.value)) :
  req_body req = Js.Obj fields ->
  dispatch cfg M req c
  = route cfg M req (Js.get_opt (req_body req) "method")
      (Js.or_else (Js.get_opt (req_body req) "params") (Js.Obj []))
      (Js.get_opt (req_body req) "id") c.
Proof.
  intros Hbody. unfold dispatch. rewrite Hbody. reflexivity.
Qed.

(** The middleware stops nothing but [tools/call]. *)
Lemma authMiddleware_other_methods (cfg : Config) (req : Request) :
  Js.eq_str (Js.get_opt (req_body req) "method") "tools/call" = false ->
  authMiddleware cfg req = Next.
Proof.
  intros H. unfold authMiddleware. rewrite H.
  destruct (negb (REQUIRE_AUTH cfg)); [ reflexivity | ].
  destruct (String.eqb (SECRET_KEY cfg) ""); [ reflexivity | ].
  now destruct (String.eqb (req_path req) "/mcp" && String.eqb (req_method req) "POST").
Qed.

(** A refusal by the middleware is a 401 that echoes the request id. *)
Lemma authMiddleware_refusal (cfg : Config) (req : Request) (res : Response) :
  authMiddleware cfg req = Respond res ->
  status res = 401%Z /\ reply_id (body res) = Js.get_opt (req_body req) "id".
Proof.
  unfold authMiddleware.
  destruct (negb (REQUIRE_AUTH cfg)); [ discriminate | ].
  destruct (String.eqb (SECRET_KEY cfg) ""); [ discriminate | ].
  destruct (String.eqb (req_path req) "/mcp" && String.eqb (req_method req) "POST");
    [ | discriminate ].
  destruct (Js.eq_str (Js.get_opt (req_body req) "method") "tools/call"); [ | discriminate ].
  destruct (header_falsy (header req "x-secret-key")).
  - intros [= <-]. now split.
  - destruct (negb _); [ | discriminate ].
    intros [= <-]. now split.
Qed.

(** The route's own check, [!body || typeof body !== 'object']: a
    [req.body] that is neither an object nor an array is answered with
    error -32700 and id null, and the cache is not touched. *)
Lemma parse_error_reply (cfg : Config) (M : ToolModules) (req : Request) (c : Cache) :
  Js.isObject (req_body req) = false ->
  Js.isArray (req_body req) = false ->
  serve cfg M req c
  = (Sent (json (Failure (-32700) "Parse error: Invalid JSON" Js.Null)), c).
Proof.
  intros Hobject Harray.
  unfold serve. rewrite authMiddleware_other_methods.
  - unfold postMcp, dispatch.
    destruct (req_body req); try discriminate; try reflexivity.
    + destruct b; reflexivity.
    + cbn. destruct (Z.eqb n 0); reflexivity.
    + cbn. destruct (String.eqb s ""); reflexivity.
  - destruct (req_body req); try discriminate; reflexivity.
Qed.

Lemma parse_error_reply_witness :
  let req := Sample.post [] (Js.Str "not a request") in
  Js.isObject (req_body req) = false /\
  Js.isArray (req_body req) = false /\
  serve Sample.config Sample.modules req emptyCache
  = (Sent (json (Failure (-32700) "Parse error: Invalid JSON" Js.Null)), emptyCache).
Proof.
  intro req.
  split; [ reflexivity | split; [ reflexivity | ] ].
  apply (parse_error_reply Sample.config Sample.modules req emptyCache); reflexivity.
Defined.

(** A JSON array is not a JSON object, yet [typeof] calls it one: it
    passes the route's check and is answered "Method not found" with no
    id. *)
Lemma array_body_is_routed :
  let req := Sample.post [] (Js.Arr []) in
  Js.isObject (req_body req) = false /\
  serve Sample.config Sample.modules req emptyCache
  = (Sent (json (Failure (-32601) "Method not found: undefined" Js.Undefined)),
     emptyCache).
Proof.
  intro req. split; reflexivity.
Qed.

(** C9 (what the code does): a body that is not JSON never reaches the
    route and its -32700 branch.  [express.json] refuses it and hands its
    error to the error handler, which answers HTTP 500 "Internal Server
    Error" with the parser's message, outside JSON-RPC; this holds whatever
    the configuration, the tool modules, the headers and the cache are, and
    the cache is not touched. *)
Theorem unparsable_body_is_answered_500 (express : Express) (cfg : Config)
  (M : ToolModules) (headers : list (string * string)) (c : Cache) (message : string) :
  handleMcp express cfg M (mkIncoming headers (Refused (Js.mkError message))) c
  = (ServerError 500 "Internal Server Error" (Js.Str message), c).
Proof.
  destruct express; reflexivity.
Qed.

(** Through the whole stack, the -32700 branch of the route is reached only
    by a request the parser skipped, and only under Express 5, which leaves
    such a request without a body; under Express 4 its body is the empty
    object and the answer is "Method not found". *)
Lemma skipped_body_reply (cfg : Config) (M : ToolModules)
  (headers : list (string * string)) (c : Cache) :
  handleMcp Express5 cfg M (mkIncoming headers Skipped) c
  = (Routed (Sent (json (Failure (-32700) "Parse error: Invalid JSON" Js.Null))), c) /\
  handleMcp Express4 cfg M (mkIncoming headers Skipped) c
  = (Routed (Sent (json (Failure (-32601) "Method not found: undefined" Js.Undefined))),
     c).
Proof.
  split.
  - unfold handleMcp, expressJson. cbn [in_parsing in_headers unparsedBody].
    rewrite parse_error_reply; reflexivity.
  - unfold handleMcp, expressJson, serve. cbn [in_parsing in_headers unparsedBody].
    rewrite authMiddleware_other_methods; reflexivity.
Qed.

(** C5 (as the server answers): a [tools/call] request without the
    [x-smartsheet-api-key] header never changes the cache; when the auth
    middleware lets it through, the reply is error -32602 with the
    request's id. *)
Theorem missing_api_key (cfg : Config) (M : ToolModules) (req : Request) (c : Cache) :
  Js.get_opt (req_body req) "method" = Js.Str "tools/call" ->
  header req "x-smartsheet-api-key" = None ->
  snd (serve cfg M req c) = c /\
  (authMiddleware cfg req = Next ->
   fst (serve cfg M req c)
   = Sent (json (Failure (-32602) "Missing required header: x-smartsheet-api-key"
                   (Js.get_opt (req_body req) "id")))).
Proof.
  intros Hmethod Hkey.
  destruct (get_opt_Str _ _ _ Hmethod) as [fields Hbody].
  assert (Hroute : postMcp cfg M req c
                   = (Sent (json (Failure (-32602)
                              "Missing required header: x-smartsheet-api-key"
                              (Js.get_opt (req_body req) "id"))), c)).
  { unfold postMcp. rewrite (dispatch_object cfg M req c fields Hbody).
    unfold route. rewrite Hmethod, Hkey. reflexivity. }
  unfold serve. destruct (authMiddleware cfg req) as [ | res ].
  - rewrite Hroute. split; [ reflexivity | intros _; reflexivity ].
  - split; [ reflexivity | discriminate ].
Qed.

Lemma missing_api_key_witness :
  let req := Sample.post [("x-secret-key", "s3cret")] (Sample.call "get_sheet" (Js.Num 3)) in
  Js.get_opt (req_body req) "method" = Js.Str "tools/call" /\
  header req "x-smartsheet-api-key" = None /\
  authMiddleware Sample.config req = Next /\
  serve Sample.config Sample.modules req emptyCache
  = (Sent (json (Failure (-32602) "Missing required header: x-smartsheet-api-key"
                   (Js.Num 3))), emptyCache).
Proof.
  intro req.
  assert (Hmethod : Js.get_opt (req_body req) "method" = Js.Str "tools/call")
    by reflexivity.
  assert (Hkey : header req "x-smartsheet-api-key" = None) by reflexivity.
  assert (Hauth : authMiddleware Sample.config req = Next) by reflexivity.
  split; [ exact Hmethod | split; [ exact Hkey | split; [ exact Hauth | ] ] ].
  destruct (missing_api_key Sample.config Sample.modules req emptyCache Hmethod Hkey)
    as [Hcache Hreply].
  specialize (Hreply Hauth).
  destruct (serve Sample.config Sample.modules req emptyCache) as [o c'].
  cbn [fst snd] in *. now rewrite Hcache, Hreply.
Defined.

(** C5 (as specified) fails behind the auth gate: with a secret configured
    and no [x-secret-key], a [tools/call] request that lacks the API key
    header is refused with HTTP 401 and error -32001, not -32602. *)
Lemma missing_api_key_unauthenticated :
  let req := Sample.post [] (Sample.call "get_sheet" (Js.Num 3)) in
  Js.get_opt (req_body req) "method" = Js.Str "tools/call" /\
  header req "x-smartsheet-api-key" = None /\
  serve Sample.config Sample.modules req emptyCache
  = (Sent (mkResponse 401
       (Failure (-32001) "Authentication required for tool execution" (Js.Num 3))),
     emptyCache).
Proof.
  intro req. repeat split.
Qed.

(** ** Registration sweeps *)

Section Sweeps.

Context {St : Type}.
Variable tool : St -> ToolCall -> Completion St.

Lemma bind_Normal_r (c : Completion St) : (s <- c ;; Normal s) = c.
Proof. now destruct c. Qed.

Lemma toolCalls_app (xs ys : list ToolCall) (s : St) :
  toolCalls tool (xs ++ ys) s = (s' <- toolCalls tool xs s ;; toolCalls tool ys s').
Proof.
  revert s. induction xs as [ | tc xs IH ]; intros s; cbn; [ reflexivity | ].
  destruct (tool s tc) as [s' | e]; cbn; [ apply IH | reflexivity ].
Qed.

Lemma registerAll_sweep (M : ToolModules) (api : SmartsheetAPI) (allowDeleteTools : bool)
  (s : St) :
  registerAll tool M api allowDeleteTools s
  = registerEach tool (sweep M api allowDeleteTools) s.
Proof.
  unfold registerAll, sweep. cbn [registerEach].
  repeat match goal with
         | |- bind ?c _ = bind ?c _ => destruct c; cbn [bind]; [ | reflexivity ]
         end.
  symmetry. apply bind_Normal_r.
Qed.

Lemma registerEach_completes (rs : list Registration) (s : St) :
  Forall (fun r => reg_throws r = None) rs ->
  registerEach tool rs s = toolCalls tool (flat_map reg_calls rs) s.
Proof.
  intros Hrs. revert s.
  induction Hrs as [ | r rs Hr _ IH ]; intros s; cbn; [ reflexivity | ].
  rewrite toolCalls_app. unfold register. rewrite Hr.
  destruct (toolCalls tool (reg_calls r) s) as [s' | e]; cbn; [ apply IH | reflexivity ].
Qed.

Lemma registerEach_Normal (rs : list Registration) (s s' : St) :
  registerEach tool rs s = Normal s' ->
  Forall (fun r => reg_throws r = None) rs.
Proof.
  revert s. induction rs as [ | r rs IH ]; intros s; cbn; [ constructor | ].
  unfold register.
  destruct (toolCalls tool (reg_calls r) s) as [s1 | e]; cbn; [ | discriminate ].
  destruct (reg_throws r) eqn:Hr; cbn; [ discriminate | ].
  intros H. constructor; [ exact Hr | exact (IH _ H) ].
Qed.

(** A sweep that completes is the run of its [server.tool] calls. *)
Lemma registerAll_completes (M : ToolModules) (api : SmartsheetAPI)
  (allowDeleteTools : bool) (s : St) :
  completes M api allowDeleteTools ->
  registerAll tool M api allowDeleteTools s
  = toolCalls tool (registered M api allowDeleteTools) s.
Proof.
  intros H. rewrite registerAll_sweep. now apply registerEach_completes.
Qed.

Lemma registerAll_Normal (M : ToolModules) (api : SmartsheetAPI)
  (allowDeleteTools : bool) (s s' : St) :
  registerAll tool M api allowDeleteTools s = Normal s' ->
  completes M api allowDeleteTools.
Proof.
  rewrite registerAll_sweep. apply registerEach_Normal.
Qed.

End Sweeps.

(** ** Tool execution *)

Lemma read_truthy (v : Js.value) (prop : string) :
  Js.truthy v = true -> read v prop = Normal (Js.get_opt v prop).
Proof.
  destruct v; cbn; try discriminate; reflexivity.
Qed.

Lemma or_else_truthy (v : Js.value) : Js.truthy (Js.or_else v (Js.Obj [])) = true.
Proof.
  unfold Js.or_else. destruct (Js.truthy v) eqn:H; [ exact H | reflexivity ].
Qed.

(** Tools with another name leave [toolFound] and [toolResult] alone. *)
Lemma executeTool_no_match (toolName toolArguments : Js.value) (calls : list ToolCall)
  (st : Execution) :
  Forall (fun tc => Js.eq_str toolName (tc_name tc) = false) calls ->
  toolCalls (executeTool toolName toolArguments) calls st = Normal st.
Proof.
  induction 1 as [ | tc calls Htc _ IH ]; cbn; [ reflexivity | ].
  unfold executeTool at 1. rewrite Htc. cbn. exact IH.
Qed.

(** C6: a [tools/call] request that passes the auth middleware and carries
    an API key, naming a tool that no module registers in a sweep that runs
    to its end, makes [executeToolCall] throw "Tool not found: <name>", and
    the reply is error -32603 with message "Tool execution error: Tool not
    found: <name>" and the request's id.  <name> is what a template literal
    prints for [params.name]: the name itself when it is a string. *)
Theorem tool_not_found (cfg : Config) (M : ToolModules) (req : Request) (c : Cache)
  (apiKey name : string) :
  authMiddleware cfg req = Next ->
  Js.get_opt (req_body req) "method" = Js.Str "tools/call" ->
  header req "x-smartsheet-api-key" = Some apiKey ->
  apiKey <> "" ->
  let params := Js.or_else (Js.get_opt (req_body req) "params") (Js.Obj []) in
  let toolName := Js.get_opt params "name" in
  let toolArguments := Js.or_else (Js.get_opt params "arguments") (Js.Obj []) in
  let apiEndpoint := header req "x-smartsheet-endpoint" in
  let allowDeleteTools := allowDeleteToolsOf req in
  let api := fst (getApiInstance apiKey apiEndpoint c) in
  Js.to_string toolName = inr name ->
  completes M api allowDeleteTools ->
  Forall (fun tc => Js.eq_str toolName (tc_name tc) = false)
         (registered M api allowDeleteTools) ->
  fst (executeToolCall M apiKey apiEndpoint allowDeleteTools toolName toolArguments c)
  = Settled (Throw (Js.mkError ("Tool not found: " ++ name))) /\
  fst (serve cfg M req c)
  = Sent (json (Failure (-32603)
                  ("Tool execution error: Tool not found: " ++ name)
                  (Js.get_opt (req_body req) "id"))).
Proof.
  intros Hauth Hmethod Hkey Hnonempty params toolName toolArguments apiEndpoint
         allowDeleteTools api Hname Hcompletes Habsent.
  assert (Hexec :
            executeToolCall M apiKey apiEndpoint allowDeleteTools toolName toolArguments c
            = (Settled (Throw (Js.mkError ("Tool not found: " ++ name))),
               snd (getApiInstance apiKey apiEndpoint c))).
  { unfold executeToolCall. subst api.
    destruct (getApiInstance apiKey apiEndpoint c) as [api c']. cbn [fst snd] in *.
    rewrite (registerAll_completes _ _ _ _ _ Hcompletes).
    rewrite (executeTool_no_match _ _ _ _ Habsent).
    unfold print. now rewrite Hname. }
  split; [ now rewrite Hexec | ].
  destruct (get_opt_Str _ _ _ Hmethod) as [fields Hbody].
  unfold serve. rewrite Hauth. unfold postMcp.
  rewrite (dispatch_object cfg M req c fields Hbody).
  unfold route. rewrite Hmethod, Hkey. cbn [Js.eq_str].
  change ("tools/call" =? "initialize")%string with false.
  change ("tools/call" =? "tools/list")%string with false.
  change ("tools/call" =? "tools/call")%string with true. cbv iota.
  apply String.eqb_neq in Hnonempty. rewrite Hnonempty.
  unfold callTool. fold params.
  rewrite !(read_truthy params) by apply or_else_truthy.
  cbn [bind]. fold toolName. fold toolArguments. fold apiEndpoint. fold allowDeleteTools.
  rewrite Hexec. unfold print. rewrite Hname. reflexivity.
Qed.

Lemma tool_not_found_witness :
  let req := Sample.post [("x-secret-key", "s3cret"); ("x-smartsheet-api-key", "token-1")]
               (Sample.call "nonexistent_tool" (Js.Num 5)) in
  authMiddleware Sample.config req = Next /\
  completes Sample.modules (fst (getApiInstance "token-1" None emptyCache)) false /\
  fst (serve Sample.config Sample.modules req emptyCache)
  = Sent (json (Failure (-32603)
                  "Tool execution error: Tool not found: nonexistent_tool" (Js.Num 5))).
Proof.
  intro req.
  assert (Hauth : authMiddleware Sample.config req = Next) by reflexivity.
  assert (Hcompletes :
            completes Sample.modules (fst (getApiInstance "token-1" None emptyCache)) false)
    by (repeat constructor).
  split; [ exact Hauth | split; [ exact Hcompletes | ] ].
  refine (proj2 (tool_not_found Sample.config Sample.modules req emptyCache "token-1"
                   "nonexistent_tool" Hauth eq_refl eq_refl _ eq_refl Hcompletes _)).
  - discriminate.
  - repeat constructor.
Defined.

(** ** Tool definitions *)

Lemma recordTool_handler (h : ToolCall -> Handler) (tools : list ToolDefinition)
  (tc : ToolCall) :
  recordTool tools (withHandler h tc) = recordTool tools tc.
Proof. reflexivity. Qed.

Lemma register_rehandle (h : ToolCall -> Handler) (r : Registration)
  (tools : list ToolDefinition) :
  register recordTool (rehandle h r) tools = register recordTool r tools.
Proof.
  unfold register, rehandle. cbn [reg_calls reg_throws]. f_equal.
  revert tools. induction (reg_calls r) as [ | tc calls IH ]; intros tools; cbn;
    [ reflexivity | ].
  rewrite recordTool_handler.
  destruct (recordTool tools tc) as [tools' | e]; cbn; [ apply IH | reflexivity ].
Qed.

(** The definitions come out in the order of the [server.tool] calls, one
    per call, after those already stored. *)
Lemma recordTool_run (calls : list ToolCall) (tools defs : list ToolDefinition) :
  toolCalls recordTool calls tools = Normal defs ->
  exists fresh, defs = tools ++ fresh /\ Forall2 recorded calls fresh.
Proof.
  revert tools. induction calls as [ | tc calls IH ]; intros tools; cbn.
  - intros [= <-]. exists []. split; [ now rewrite app_nil_r | constructor ].
  - unfold recordTool at 1.
    destruct (convertSchema tc) as [schema | e] eqn:Hschema; cbn; [ | discriminate ].
    intros Hrest. destruct (IH _ Hrest) as (fresh & -> & Hfresh).
    exists (mkToolDefinition (tc_name tc) (tc_description tc) schema :: fresh).
    split; [ now rewrite <- app_assoc | ].
    constructor; [ | exact Hfresh ].
    repeat split; cbn; assumption.
Qed.

Lemma getToolDefinitions_recorded (M : ToolModules) (allowDeleteTools : bool)
  (defs : list ToolDefinition) :
  getToolDefinitions M allowDeleteTools = Normal defs ->
  Forall2 recorded (registered M dummyApi allowDeleteTools) defs.
Proof.
  unfold getToolDefinitions. intros H.
  pose proof (registerAll_Normal _ _ _ _ _ _ H) as Hcompletes.
  rewrite (registerAll_completes _ _ _ _ _ Hcompletes) in H.
  now destruct (recordTool_run _ _ _ H) as (fresh & -> & Hfresh).
Qed.

Lemma recorded_names (calls : list ToolCall) (defs : list ToolDefinition) :
  Forall2 recorded calls defs -> map name defs = map tc_name calls.
Proof.
  induction 1 as [ | tc d calls defs (Hname & _) _ IH ]; cbn; [ reflexivity | ].
  now rewrite Hname, IH.
Qed.

(** A [tools/list] request is answered from [getToolDefinitions] alone. *)
Lemma tools_list_reply (cfg : Config) (M : ToolModules) (req : Request) (c : Cache) :
  Js.get_opt (req_body req) "method" = Js.Str "tools/list" ->
  listedTools (fst (serve cfg M req c))
  = match getToolDefinitions M (allowDeleteToolsOf req) with
    | Normal defs => Some defs
    | Throw _ => None
    end /\
  snd (serve cfg M req c) = c.
Proof.
  intros Hmethod.
  destruct (get_opt_Str _ _ _ Hmethod) as [fields Hbody].
  unfold serve. rewrite authMiddleware_other_methods by now rewrite Hmethod.
  unfold postMcp. rewrite (dispatch_object cfg M req c fields Hbody).
  unfold route. rewrite Hmethod. cbn [Js.eq_str].
  change ("tools/list" =? "initialize")%string with false.
  change ("tools/list" =? "tools/list")%string with true. cbv iota.
  destruct (getToolDefinitions M (allowDeleteToolsOf req)) as [defs | e]; cbn [bind].
  - split; reflexivity.
  - catch_cases; split; reflexivity.
Qed.

(** C7: [getToolDefinitions] calls no handler, since its result is the same
    whatever the handlers are; and it is deterministic: two [tools/list]
    requests with the same [x-allow-delete-tools] flag get the same list,
    whatever the cache holds and whatever else the requests carry, neither
    changes the cache, and the list names the tools in registration
    order. *)
Theorem getToolDefinitions_records_only :
  (forall (M : ToolModules) (allowDeleteTools : bool) (h : ToolCall -> Handler),
     getToolDefinitions (rewire h M) allowDeleteTools
     = getToolDefinitions M allowDeleteTools) /\
  (forall (cfg : Config) (M : ToolModules) (req1 req2 : Request) (c1 c2 : Cache),
     Js.get_opt (req_body req1) "method" = Js.Str "tools/list" ->
     Js.get_opt (req_body req2) "method" = Js.Str "tools/list" ->
     allowDeleteToolsOf req1 = allowDeleteToolsOf req2 ->
     listedTools (fst (serve cfg M req1 c1)) = listedTools (fst (serve cfg M req2 c2)) /\
     snd (serve cfg M req1 c1) = c1 /\
     snd (serve cfg M req2 c2) = c2) /\
  (forall (cfg : Config) (M : ToolModules) (req : Request) (c : Cache)
          (defs : list ToolDefinition),
     Js.get_opt (req_body req) "method" = Js.Str "tools/list" ->
     getToolDefinitions M (allowDeleteToolsOf req) = Normal defs ->
     listedTools (fst (serve cfg M req c)) = Some defs /\
     map name defs = map tc_name (registered M dummyApi (allowDeleteToolsOf req))).
Proof.
  split; [ | split ].
  - intros M allowDeleteTools h.
    unfold getToolDefinitions, registerAll, rewire.
    cbn [getDiscussionTools getFolderTools getSearchTools getSheetTools
         getUpdateRequestTools getUserTools getWorkspaceTools].
    repeat match goal with
           | |- bind (register _ (rehandle _ _) _) _ = _ =>
               rewrite register_rehandle
           | |- bind ?c _ = bind ?c _ => destruct c; cbn [bind]; [ | reflexivity ]
           end.
    apply register_rehandle.
  - intros cfg M req1 req2 c1 c2 H1 H2 Hflag.
    destruct (tools_list_reply cfg M req1 c1 H1) as [Hlist1 Hcache1].
    destruct (tools_list_reply cfg M req2 c2 H2) as [Hlist2 Hcache2].
    rewrite Hlist1, Hlist2, Hflag. repeat split; assumption.
  - intros cfg M req c defs Hmethod Hdefs.
    destruct (tools_list_reply cfg M req c Hmethod) as [Hlist _].
    rewrite Hdefs in Hlist. split; [ exact Hlist | ].
    apply recorded_names. now apply getToolDefinitions_recorded.
Qed.

Lemma getToolDefinitions_records_only_witness :
  let req1 := Sample.post [("x-allow-delete-tools", "true")]
                (Sample.rpc "tools/list" (Js.Num 1)) in
  let req2 := Sample.post [("x-allow-delete-tools", "true"); ("x-secret-key", "nope")]
                (Sample.rpc "tools/list" (Js.Str "second")) in
  let busy := getApiInstances Sample.busyTraffic emptyCache in
  allowDeleteToolsOf req1 = allowDeleteToolsOf req2 /\
  listedTools (fst (serve Sample.config Sample.modules req1 emptyCache))
  = listedTools (fst (serve Sample.config Sample.modules req2 busy)) /\
  option_map (map name) (listedTools (fst (serve Sample.config Sample.modules req1 emptyCache)))
  = Some ["get_sheet"; "delete_rows"; "get_current_user"].
Proof.
  intros req1 req2 busy.
  assert (Hflag : allowDeleteToolsOf req1 = allowDeleteToolsOf req2) by reflexivity.
  split; [ exact Hflag | split ].
  - exact (proj1 (proj1 (proj2 getToolDefinitions_records_only)
                    Sample.config Sample.modules req1 req2 emptyCache busy
                    eq_refl eq_refl Hflag)).
  - reflexivity.
Defined.

(** ** Schema projection *)

Lemma assoc_app {A : Type} (k : string) (xs ys : list (string * A)) :
  Js.assoc k (xs ++ ys)
  = match Js.assoc k xs with
    | Some x => Some x
    | None => Js.assoc k ys
    end.
Proof.
  induction xs as [ | [k' x] xs IH ]; cbn; [ reflexivity | ].
  now destruct (String.eqb k k').
Qed.

Lemma assoc_None {A : Type} (k : string) (l : list (string * A)) :
  Js.assoc k l = None <-> ~ In k (map fst l).
Proof.
  induction l as [ | [k' x] l IH ]; cbn.
  - split; [ intros _ [] | reflexivity ].
  - destruct (String.eqb k k') eqn:E; string_cases.
    + split; [ discriminate | intros H; exfalso; apply H; now left ].
    + rewrite IH. split.
      * intros H [H' | H']; [ now apply E | now apply H ].
      * intros H H'. apply H. now right.
Qed.

Lemma assoc_In {A : Type} (k : string) (x : A) (l : list (string * A)) :
  NoDup (map fst l) -> In (k, x) l -> Js.assoc k l = Some x.
Proof.
  induction l as [ | [k' x'] l IH ]; cbn; [ intros _ [] | ].
  intros Hnodup [[= -> ->] | Hin].
  - now rewrite String.eqb_refl.
  - inversion Hnodup as [ | ? ? Hfresh Hrest ]; subst.
    destruct (String.eqb k k') eqn:E; string_cases.
    + exfalso. apply Hfresh. change k' with (fst (k', x)). now apply in_map.
    + now apply IH.
Qed.

Lemma define_prop_absent (k : string) (v : Js.value)
  (fields : list (string * Js.value)) :
  Js.assoc k fields = None -> Js.define_prop k v fields = fields ++ [(k, v)].
Proof.
  induction fields as [ | [k' v'] fields IH ]; cbn; [ reflexivity | ].
  destruct (String.eqb k k'); [ discriminate | ].
  intros H. now rewrite IH.
Qed.

(** What the loop stores: a property for every described field with an
    assignable name, and every described field's name in [required]. *)
Lemma convertEntries_spec (fields properties : list (string * Js.value))
  (required : list string) :
  NoDup (map fst fields) ->
  (forall k, In k (map fst fields) -> Js.assoc k properties = None) ->
  convertEntries fields properties required
  = (properties ++
       map (fun kv => (fst kv,
                       Js.Obj [("type", Js.Str "string");
                               ("description", Js.get_opt (snd kv) "description")]))
           (filter (fun kv => assignable (fst kv))
                   (filter (fun kv => described (snd kv)) fields)),
     required ++ map fst (filter (fun kv => described (snd kv)) fields)).
Proof.
  revert properties required.
  induction fields as [ | [key v] fields IH ]; intros properties required Hnodup Hfresh;
    cbn [convertEntries filter map snd fst].
  - now rewrite !app_nil_r.
  - inversion Hnodup as [ | ? ? Hkey Hrest ]; subst.
    destruct (described v) eqn:Hv; cbn [map fst snd filter].
    + unfold Js.set_prop, assignable.
      destruct (String.eqb key "__proto__") eqn:Hproto; cbn [negb map fst snd].
      * rewrite IH; [ now rewrite <- !app_assoc | exact Hrest | ].
        intros k Hk. apply Hfresh. now right.
      * rewrite define_prop_absent by (apply Hfresh; now left).
        rewrite IH; [ now rewrite <- !app_assoc | exact Hrest | ].
        intros k Hk. rewrite assoc_app, (Hfresh k) by now right.
        cbn. destruct (String.eqb k key) eqn:E; string_cases;
          [ contradiction | reflexivity ].
    + apply IH; [ exact Hrest | ].
      intros k Hk. apply Hfresh. now right.
Qed.

Lemma filter_map_fst {A B : Type} (p : string -> bool) (f : string * A -> B)
  (l : list (string * A)) :
  filter (fun d => p (fst d)) (map (fun kv => (fst kv, f kv)) l)
  = map (fun kv => (fst kv, f kv)) (filter (fun kv => p (fst kv)) l).
Proof.
  induction l as [ | kv l IH ]; cbn; [ reflexivity | ].
  destruct (p (fst kv)); cbn; now rewrite IH.
Qed.

(** A schema object is stored as the projection of its described fields. *)
Lemma convertSchema_object (tc : ToolCall) (fields : list (string * Js.value)) :
  tc_schema tc = Some (Js.Obj fields) ->
  NoDup (map fst fields) ->
  convertSchema tc = Normal (projectedSchema (describedFields fields)).
Proof.
  intros Hschema Hnodup. unfold convertSchema. rewrite Hschema.
  cbn [Js.truthy Js.typeof_object Js.isArray negb andb].
  rewrite convertEntries_spec by (try assumption; reflexivity).
  cbn [app]. unfold projectedSchema, describedFields.
  rewrite filter_map_fst, !map_map. cbn [fst snd].
  destruct (filter (fun kv => described (snd kv)) fields) as [ | kv kept ]; reflexivity.
Qed.

Lemma described_spec (v : Js.value) :
  described v = true <->
  exists attrs d, v = Js.Obj attrs /\ Js.assoc "description" attrs = Some d.
Proof.
  unfold described. split.
  - destruct v as [ | | b | n safe | s | items | attrs ]; cbn; try discriminate.
    + now rewrite andb_false_r.
    + now rewrite andb_false_r.
    + now rewrite andb_false_r.
    + destruct (Js.assoc "description" attrs) as [d | ] eqn:Hd; [ eauto | discriminate ].
  - intros (attrs & d & -> & Hd). cbn. now rewrite Hd.
Qed.

Lemma describedFields_spec (fields : list (string * Js.value)) (k : string)
  (d : Js.value) :
  In (k, d) (describedFields fields) <->
  exists v attrs,
    In (k, v) fields /\ v = Js.Obj attrs /\ Js.assoc "description" attrs = Some d.
Proof.
  unfold describedFields. rewrite in_map_iff. split.
  - intros ([k' v] & [= <- <-] & Hin). apply filter_In in Hin. cbn in Hin.
    destruct Hin as [Hin Hv]. apply described_spec in Hv.
    destruct Hv as (attrs & d & -> & Hd).
    exists (Js.Obj attrs), attrs. cbn. unfold Js.get_opt. cbn. rewrite Hd. now repeat split.
  - intros (v & attrs & Hin & -> & Hd).
    exists (k, Js.Obj attrs). split.
    + cbn. unfold Js.get_opt. cbn. now rewrite Hd.
    + apply filter_In. split; [ exact Hin | ]. cbn [snd].
      apply described_spec. eauto.
Qed.

Lemma describedFields_NoDup (fields : list (string * Js.value)) :
  NoDup (map fst fields) -> NoDup (map fst (describedFields fields)).
Proof.
  unfold describedFields. rewrite map_map. cbn [fst].
  induction fields as [ | [k v] fields IH ]; cbn; [ constructor | ].
  intros Hnodup. inversion Hnodup as [ | ? ? Hk Hrest ]; subst.
  destruct (described v); cbn; [ | now apply IH ].
  constructor; [ | now apply IH ].
  intros Hin. apply Hk. apply in_map_iff in Hin. destruct Hin as (kv & <- & Hkv).
  apply filter_In in Hkv. now apply in_map.
Qed.

Lemma NoDup_filter_fst {A : Type} (p : string * A -> bool) (l : list (string * A)) :
  NoDup (map fst l) -> NoDup (map fst (filter p l)).
Proof.
  induction l as [ | kv l IH ]; cbn; [ constructor | ].
  intros Hnodup. inversion Hnodup as [ | ? ? Hk Hrest ]; subst.
  destruct (p kv); cbn; [ | now apply IH ].
  constructor; [ | now apply IH ].
  intros Hin. apply Hk. apply in_map_iff in Hin. destruct Hin as (kv' & <- & Hkv).
  apply filter_In in Hkv. now apply in_map.
Qed.

(** What a projected schema holds: a property of its own for each name
    that is assignable, none for any other name, and all names in
    [required]. *)
Lemma projectedSchema_contents (ds : list (string * Js.value)) :
  NoDup (map fst ds) ->
  exists properties,
    Js.get_opt (projectedSchema ds) "properties" = Js.Obj properties /\
    Js.get_opt (projectedSchema ds) "type" = Js.Str "object" /\
    (forall k d,
       In (k, d) ds ->
       (k <> "__proto__" ->
        Js.assoc k properties
        = Some (Js.Obj [("type", Js.Str "string"); ("description", d)])) /\
       exists names,
         Js.get_opt (projectedSchema ds) "required" = Js.Arr names /\
         In (Js.Str k) names) /\
    (forall k,
       ~ In k (map fst ds) \/ k = "__proto__" -> Js.assoc k properties = None).
Proof.
  intros Hnodup. eexists. split; [ reflexivity | split; [ reflexivity | split ] ].
  - intros k d Hin. split.
    + intros Hk.
      apply assoc_In.
      * rewrite map_map. cbn [fst]. now apply NoDup_filter_fst.
      * apply in_map_iff. exists (k, d). split; [ reflexivity | ].
        apply filter_In. split; [ exact Hin | ].
        unfold assignable. cbn [fst]. apply String.eqb_neq in Hk. now rewrite Hk.
    + destruct ds as [ | d0 ds ]; [ destruct Hin | ].
      eexists. split; [ reflexivity | ].
      apply in_map_iff. exists (k, d). now split.
  - intros k Hk. apply assoc_None. rewrite map_map. cbn [fst].
    intros Hin. apply in_map_iff in Hin. destruct Hin as (d & <- & Hd).
    apply filter_In in Hd. destruct Hd as [Hd Hassignable].
    destruct Hk as [Hk | Hk].
    + apply Hk. now apply in_map.
    + unfold assignable in Hassignable. rewrite Hk in Hassignable. discriminate.
Qed.


(** X16: every definition [getToolDefinitions] returns for a tool
    registered with a schema object has, as [inputSchema], the projection
    of the schema's described fields: the fields whose value is an object
    with a [description] attribute.  Each of them is listed in [required]
    and, unless it is named [__proto__], is a property of type [string]
    with that description; no other field is a property, and nothing else
    of the schema is kept. *)
Theorem inputSchema_projection (M : ToolModules) (allowDeleteTools : bool)
  (defs : list ToolDefinition) :
  getToolDefinitions M allowDeleteTools = Normal defs ->
  Forall2
    (fun tc d =>
       forall fields,
         tc_schema tc = Some (Js.Obj fields) ->
         NoDup (map fst fields) ->
         inputSchema d = projectedSchema (describedFields fields) /\
         (forall k dsc,
            In (k, dsc) (describedFields fields) <->
            exists v attrs,
              In (k, v) fields /\ v = Js.Obj attrs /\
              Js.assoc "description" attrs = Some dsc) /\
         exists properties,
           Js.get_opt (inputSchema d) "properties" = Js.Obj properties /\
           (forall k dsc,
              In (k, dsc) (describedFields fields) ->
              (k <> "__proto__" ->
               Js.assoc k properties
               = Some (Js.Obj [("type", Js.Str "string"); ("description", dsc)])) /\
              exists names,
                Js.get_opt (inputSchema d) "required" = Js.Arr names /\
                In (Js.Str k) names) /\
           (forall k,
              ~ In k (map fst (describedFields fields)) \/ k = "__proto__" ->
              Js.assoc k properties = None))
    (registered M dummyApi allowDeleteTools) defs.
Proof.
  intros Hdefs.
  eapply Forall2_impl; [ | exact (getToolDefinitions_recorded _ _ _ Hdefs) ].
  intros tc d (_ & _ & Hconv) fields Hschema Hnodup.
  rewrite (convertSchema_object tc fields Hschema Hnodup) in Hconv.
  injection Hconv as Hconv. rewrite <- Hconv.
  destruct (projectedSchema_contents _ (describedFields_NoDup _ Hnodup))
    as (properties & Hproperties & _ & Hprops & Hothers).
  split; [ reflexivity | split ].
  - intros k dsc. apply describedFields_spec.
  - exists properties.
    split; [ exact Hproperties | split; [ exact Hprops | exact Hothers ] ].
Qed.

Lemma inputSchema_projection_witness :
  getToolDefinitions Sample.modules false
  = Normal
      [mkToolDefinition "get_sheet" "Retrieves a sheet"
         (Js.Obj
            [("type", Js.Str "object");
             ("properties",
              Js.Obj
                [("sheetId",
                  Js.Obj [("type", Js.Str "string");
                          ("description", Js.Str "The ID of the sheet")]);
                 ("include",
                  Js.Obj [("type", Js.Str "string");
                          ("description", Js.Str "What to include")])]);
             ("required", Js.Arr [Js.Str "sheetId"; Js.Str "include"])]);
       mkToolDefinition "get_current_user" "Gets the current user"
         (Js.Obj [("type", Js.Str "object"); ("properties", Js.Obj []);
                  ("required", Js.Undefined)])] /\
  Forall2
    (fun tc d =>
       forall fields,
         tc_schema tc = Some (Js.Obj fields) ->
         NoDup (map fst fields) ->
         inputSchema d = projectedSchema (describedFields fields))
    (registered Sample.modules dummyApi false)
    [mkToolDefinition "get_sheet" "Retrieves a sheet"
       (projectedSchema
          [("sheetId", Js.Str "The ID of the sheet");
           ("include", Js.Str "What to include")]);
     mkToolDefinition "get_current_user" "Gets the current user" (projectedSchema [])].
Proof.
  assert (Hdefs : getToolDefinitions Sample.modules false = Normal _) by reflexivity.
  split; [ exact Hdefs | ].
  eapply Forall2_impl; [ | exact (inputSchema_projection Sample.modules false _ Hdefs) ].
  intros tc d H fields Hschema Hnodup. exact (proj1 (H fields Hschema Hnodup)).
Defined.

(** ** Request ids *)

Lemma callTool_id (M : ToolModules) (req : Request) (apiKey : string)
  (params requestId : Js.value) (c c' : Cache) (res : Response) :
  callTool M req apiKey params requestId c = (Settled (Normal res), c') ->
  reply_id (body res) = requestId.
Proof.
  unfold callTool.
  destruct (read params "name") as [toolName | e]; cbn [bind]; [ | discriminate ].
  destruct (read params "arguments") as [arguments | e]; cbn [bind]; [ | discriminate ].
  destruct (executeToolCall _ _ _ _ _ _ _) as [[[result | error] | ] c1];
    [ | | discriminate ].
  - intros [= <- _]. reflexivity.
  - destruct (print toolName) as [text | e]; cbn [bind]; [ | discriminate ].
    destruct (read error "message") as [message | e]; cbn [bind]; [ | discriminate ].
    destruct (print message) as [text' | e]; cbn [bind]; [ | discriminate ].
    intros [= <- _]. reflexivity.
Qed.

(** Every reply sent from inside the [try] block carries [requestId]. *)
Lemma route_id (cfg : Config) (M : ToolModules) (req : Request)
  (method params requestId : Js.value) (c c' : Cache) (res : Response) :
  route cfg M req method params requestId c = (Settled (Normal res), c') ->
  reply_id (body res) = requestId.
Proof.
  unfold route.
  destruct (Js.eq_str method "initialize"); [ now intros [= <- _] | ].
  destruct (Js.eq_str method "tools/list").
  { destruct (getToolDefinitions M (allowDeleteToolsOf req)); cbn [bind];
      [ now intros [= <- _] | discriminate ]. }
  destruct (Js.eq_str method "tools/call").
  - destruct (header req "x-smartsheet-api-key") as [k | ]; [ | now intros [= <- _] ].
    destruct (String.eqb k ""); [ now intros [= <- _] | ].
    apply callTool_id.
  - destruct (print method); cbn [bind]; [ now intros [= <- _] | discriminate ].
Qed.

(** C4 (as the server answers): for a request whose body is a JSON object,
    every reply that does not come from the internal-error handler carries
    the request's id exactly as given, whether a number, a string, null or
    absent, and such a reply is sent unless a tool handler's promise never
    settles; a reply from the internal-error handler carries the request's
    id when that id is truthy, and null when the request's id is null or
    absent. *)
Theorem response_id (cfg : Config) (M : ToolModules) (req : Request) (c : Cache)
  (fields : list (string * Js.value)) :
  req_body req = Js.Obj fields ->
  let id := Js.get_opt (req_body req) "id" in
  (internalError cfg M req c = false ->
   (forall res, fst (serve cfg M req c) = Sent res -> reply_id (body res) = id) /\
   (fst (serve cfg M req c) <> NoReply -> exists res, fst (serve cfg M req c) = Sent res)) /\
  (internalError cfg M req c = true ->
   forall res,
     fst (serve cfg M req c) = Sent res ->
     (Js.truthy id = true -> reply_id (body res) = id) /\
     (id = Js.Null \/ id = Js.Undefined -> reply_id (body res) = Js.Null)).
Proof.
  intros Hbody id. unfold internalError, serve.
  destruct (authMiddleware cfg req) as [ | refusal ] eqn:Hauth.
  - unfold postMcp.
    pose proof (dispatch_object cfg M req c fields Hbody) as Hdispatch.
    destruct (dispatch cfg M req c) as [[[res | error] | ] c'] eqn:Hd; cbn [fst].
    + split; [ intros _ | discriminate ].
      split; [ | intros _; eexists; reflexivity ].
      intros res' [= <-].
      symmetry in Hdispatch. exact (route_id _ _ _ _ _ _ _ _ _ Hdispatch).
    + split; [ discriminate | intros _ res ].
      catch_cases; cbn [fst]; try discriminate.
      intros [= <-]. cbn [json body reply_id]. fold id. unfold Js.or_else. split.
      * intros Htruthy. now rewrite Htruthy.
      * intros [-> | ->]; reflexivity.
    + split; [ intros _ | discriminate ].
      split; [ discriminate | intros H; now destruct H ].
  - split; [ intros _ | discriminate ].
    split; [ | intros _; eexists; reflexivity ].
    intros res [= <-].
    apply (authMiddleware_refusal cfg req refusal Hauth).
Qed.

Lemma response_id_witness :
  let req := Sample.post [] (Sample.rpc "resources/list" (Js.Num 0)) in
  req_body req
  = Js.Obj [("jsonrpc", Js.Str "2.0"); ("method", Js.Str "resources/list");
            ("params", Js.Obj []); ("id", Js.Num 0)] /\
  internalError Sample.config Sample.modules req emptyCache = false /\
  exists res,
    fst (serve Sample.config Sample.modules req emptyCache) = Sent res /\
    reply_id (body res) = Js.Num 0.
Proof.
  intro req.
  assert (Hquiet : internalError Sample.config Sample.modules req emptyCache = false)
    by reflexivity.
  split; [ reflexivity | split; [ exact Hquiet | ] ].
  destruct (proj1 (response_id Sample.config Sample.modules req emptyCache _ eq_refl)
              Hquiet) as [Hid Hsent].
  destruct Hsent as [res Hres]; [ discriminate | ].
  exists res. split; [ exact Hres | exact (Hid res Hres) ].
Defined.

(** C4 (as specified) fails in the internal-error handler: when a tool
    module throws during a [tools/list] sweep, a request sent without an id
    is answered with id null, and so is a request sent with id 0. *)
Lemma internal_error_id :
  let absent :=
    Sample.post [] (Js.Obj [("jsonrpc", Js.Str "2.0"); ("method", Js.Str "tools/list")]) in
  let zero := Sample.post [] (Sample.rpc "tools/list" (Js.Num 0)) in
  Js.get_opt (req_body absent) "id" = Js.Undefined /\
  fst (serve Sample.config Sample.failingModules absent emptyCache)
  = Sent (json (Failure (-32603) "Internal error: folder tools unavailable" Js.Null)) /\
  Js.get_opt (req_body zero) "id" = Js.Num 0 /\
  fst (serve Sample.config Sample.failingModules zero emptyCache)
  = Sent (json (Failure (-32603) "Internal error: folder tools unavailable" Js.Null)).
Proof.
  intros absent zero. repeat split.
Qed.

(** * Further properties of the server *)

(** ** When the middleware refuses *)

Lemma eq_str_true (v : Js.value) (s : string) :
  Js.eq_str v s = true <-> v = Js.Str s.
Proof.
  destruct v; cbn; try (split; [ discriminate | intros [=] ]).
  rewrite String.eqb_eq. split; [ now intros -> | now intros [= ->] ].
Qed.

Lemma header_matches (h : option string) (secret : string) :
  secret <> "" ->
  (header_falsy h = false /\
   negb (match h with Some k => String.eqb k secret | None => false end) = false)
  <-> h = Some secret.
Proof.
  intros Hsecret. destruct h as [k | ]; cbn.
  - destruct (String.eqb k secret) eqn:E; string_cases; cbn.
    + apply String.eqb_neq in Hsecret. rewrite Hsecret. now split.
    + split; [ intros [_ H]; discriminate | intros [= H]; contradiction ].
  - split; [ intros [H _]; discriminate | discriminate ].
Qed.

(** The conditions under which [authMiddleware] answers itself. *)
Lemma authMiddleware_Respond (cfg : Config) (req : Request) :
  (exists res, authMiddleware cfg req = Respond res) <->
  REQUIRE_AUTH cfg = true /\ SECRET_KEY cfg <> "" /\
  req_path req = "/mcp" /\ req_method req = "POST" /\
  Js.get_opt (req_body req) "method" = Js.Str "tools/call" /\
  header req "x-secret-key" <> Some (SECRET_KEY cfg).
Proof.
  unfold authMiddleware.
  destruct (REQUIRE_AUTH cfg); cbn [negb].
  2:{ split; [ intros [res [=]] | intros [[=] _] ]. }
  destruct (String.eqb (SECRET_KEY cfg) "") eqn:Hsecret; string_cases.
  { split; [ intros [res [=]] | intros (_ & H & _); contradiction ]. }
  destruct (String.eqb (req_path req) "/mcp") eqn:Hpath; string_cases; cbn [andb].
  2:{ split; [ intros [res [=]] | intros (_ & _ & H & _); contradiction ]. }
  destruct (String.eqb (req_method req) "POST") eqn:Hverb; string_cases.
  2:{ split; [ intros [res [=]] | intros (_ & _ & _ & H & _); contradiction ]. }
  destruct (Js.eq_str (Js.get_opt (req_body req) "method") "tools/call") eqn:Hmethod.
  2:{ split; [ intros [res [=]] | ].
      intros (_ & _ & _ & _ & H & _). apply eq_str_true in H. congruence. }
  apply eq_str_true in Hmethod.
  pose proof (header_matches (header req "x-secret-key") _ Hsecret) as Hmatch.
  destruct (header_falsy (header req "x-secret-key")).
  - split; [ intros _ | eauto ].
    repeat split; try assumption.
    intros H. apply Hmatch in H. now destruct H.
  - destruct (negb _).
    + split; [ intros _ | eauto ].
      repeat split; try assumption.
      intros H. apply Hmatch in H. now destruct H.
    + split; [ intros [res [=]] | ].
      intros (_ & _ & _ & _ & _ & H). exfalso. apply H. now apply Hmatch.
Qed.

(** X1: [authMiddleware] answers a request itself exactly when auth is
    required, a secret is configured, the request is a POST to [/mcp] whose
    body has method [tools/call], and the [x-secret-key] header is not the
    secret; its answer is then HTTP 401 with error -32001 and the request's
    id.  Every other request, on any path and with any method, goes on. *)
Theorem authMiddleware_refuses_iff (cfg : Config) (req : Request) :
  ((exists res, authMiddleware cfg req = Respond res) <->
   REQUIRE_AUTH cfg = true /\ SECRET_KEY cfg <> "" /\
   req_path req = "/mcp" /\ req_method req = "POST" /\
   Js.get_opt (req_body req) "method" = Js.Str "tools/call" /\
   header req "x-secret-key" <> Some (SECRET_KEY cfg)) /\
  (forall res,
     authMiddleware cfg req = Respond res ->
     status res = 401%Z /\
     errorCode (body res) = Some (-32001)%Z /\
     reply_id (body res) = Js.get_opt (req_body req) "id") /\
  ((forall res, authMiddleware cfg req <> Respond res) -> authMiddleware cfg req = Next).
Proof.
  split; [ apply authMiddleware_Respond | split ].
  - intros res. unfold authMiddleware.
    repeat match goal with
           | |- (if ?b then _ else _) = _ -> _ => destruct b
           end; try discriminate; intros [= <-]; repeat split.
  - intros H. destruct (authMiddleware cfg req) as [ | res ]; [ reflexivity | ].
    now destruct (H res).
Qed.

(** X2: read from the environment, the gate refuses some request exactly
    when [REQUIRE_AUTH] is anything but the string [false] (unset included)
    and [SECRET_KEY] is set to a non-empty string; in every other
    deployment each request passes the middleware. *)
Theorem gate_active_iff (env : Env) (version : string) :
  (exists req res, authMiddleware (loadConfig env version) req = Respond res) <->
  env "REQUIRE_AUTH" <> Some "false" /\
  exists secret, env "SECRET_KEY" = Some secret /\ secret <> "".
Proof.
  assert (Hauth : REQUIRE_AUTH (loadConfig env version) = true <->
                  env "REQUIRE_AUTH" <> Some "false").
  { cbn. destruct (env "REQUIRE_AUTH") as [v | ]; cbn.
    - destruct (String.eqb v "false") eqn:E; string_cases; cbn.
      + split; [ discriminate | intros H; now destruct H ].
      + split; [ intros _ [= H]; contradiction | reflexivity ].
    - split; [ discriminate | reflexivity ]. }
  assert (Hsecret : SECRET_KEY (loadConfig env version) <> "" <->
                    exists secret, env "SECRET_KEY" = Some secret /\ secret <> "").
  { cbn. destruct (env "SECRET_KEY") as [s | ]; cbn.
    - destruct (String.eqb s "") eqn:E; string_cases.
      + split; [ intros H; now destruct H | intros (s' & [= <-] & H); contradiction ].
      + split; [ eauto | intros _; exact E ].
    - split; [ intros H; now destruct H | intros (s' & [=] & _) ]. }
  split.
  - intros (req & Hres). apply authMiddleware_Respond in Hres.
    destruct Hres as (Hon & Hkey & _). split; [ now apply Hauth | now apply Hsecret ].
  - intros [Hon Hkey].
    exists (mkRequest "POST" "/mcp" [] (Js.Obj [("method", Js.Str "tools/call")])).
    apply authMiddleware_Respond.
    split; [ now apply Hauth | split; [ now apply Hsecret | ] ].
    repeat split; discriminate.
Qed.

(** ** What a request does to the cache *)

Lemma read_object_like (v : Js.value) (prop : string) :
  negb (Js.truthy v) || negb (Js.typeof_object v) = false ->
  read v prop = Normal (Js.get_opt v prop).
Proof.
  destruct v; cbn; try discriminate; reflexivity.
Qed.

(** Past the body check, the three reads succeed and the request is routed. *)
Lemma dispatch_routed (cfg : Config) (M : ToolModules) (req : Request) (c : Cache) :
  negb (Js.truthy (req_body req)) || negb (Js.typeof_object (req_body req)) = false ->
  dispatch cfg M req c
  = route cfg M req (Js.get_opt (req_body req) "method")
      (Js.or_else (Js.get_opt (req_body req) "params") (Js.Obj []))
      (Js.get_opt (req_body req) "id") c.
Proof.
  intros Hbody. unfold dispatch. rewrite Hbody.
  now rewrite !(read_object_like _ _ Hbody).
Qed.

(** The [tools/call] branch in one piece: the reply follows from what
    [executeToolCall] completes with. *)
Lemma callTool_unfold (M : ToolModules) (req : Request) (apiKey : string)
  (params requestId : Js.value) (c : Cache) :
  Js.truthy params = true ->
  callTool M req apiKey params requestId c
  = (match fst (executeToolCall M apiKey (header req "x-smartsheet-endpoint")
                  (allowDeleteToolsOf req) (Js.get_opt params "name")
                  (Js.or_else (Js.get_opt params "arguments") (Js.Obj [])) c) with
     | Settled (Normal result) =>
         Settled (Normal (json (Success (CallResult result) requestId)))
     | Settled (Throw error) =>
         Settled
           (_ <- print (Js.get_opt params "name") ;;
            message <- read error "message" ;;
            text <- print message ;;
            Normal (json (Failure (-32603) ("Tool execution error: " ++ text) requestId)))
     | Unsettled => Unsettled
     end,
     snd (getApiInstance apiKey (header req "x-smartsheet-endpoint") c)).
Proof.
  intros Hparams. unfold callTool.
  rewrite !(read_truthy params) by exact Hparams. cbn [bind].
  rewrite <- (executeToolCall_cache M apiKey (header req "x-smartsheet-endpoint")
                (allowDeleteToolsOf req) (Js.get_opt params "name")
                (Js.or_else (Js.get_opt params "arguments") (Js.Obj [])) c).
  now destruct (executeToolCall _ _ _ _ _ _ _) as [[[result | error] | ] c'].
Qed.

(** A [tools/call] request let through with an API key reaches [callTool]. *)
Lemma serve_call (cfg : Config) (M : ToolModules) (req : Request) (c : Cache)
  (apiKey : string) :
  authMiddleware cfg req = Next ->
  Js.get_opt (req_body req) "method" = Js.Str "tools/call" ->
  header req "x-smartsheet-api-key" = Some apiKey ->
  apiKey <> "" ->
  dispatch cfg M req c
  = callTool M req apiKey (Js.or_else (Js.get_opt (req_body req) "params") (Js.Obj []))
      (Js.get_opt (req_body req) "id") c.
Proof.
  intros Hauth Hmethod Hkey Hnonempty.
  destruct (get_opt_Str _ _ _ Hmethod) as [fields Hbody].
  rewrite (dispatch_object cfg M req c fields Hbody).
  unfold route. rewrite Hmethod, Hkey. cbn [Js.eq_str].
  change ("tools/call" =? "initialize")%string with false.
  change ("tools/call" =? "tools/list")%string with false.
  change ("tools/call" =? "tools/call")%string with true. cbv iota.
  apply String.eqb_neq in Hnonempty. now rewrite Hnonempty.
Qed.

Lemma postMcp_cache (cfg : Config) (M : ToolModules) (req : Request) (c : Cache) :
  snd (postMcp cfg M req c) = snd (dispatch cfg M req c).
Proof.
  unfold postMcp.
  destruct (dispatch cfg M req c) as [[[res | error] | ] c']; try reflexivity.
  now destruct (bind _ _).
Qed.

(** X3: a request changes the cache only if the middleware let it through,
    its method is [tools/call] and it carries a non-empty
    [x-smartsheet-api-key]; the change is then that of one [getApiInstance]
    call for that key and the [x-smartsheet-endpoint] header.  Refused
    requests, discovery requests and malformed ones leave the cache as it
    was. *)
Theorem cache_changes_only_on_calls (cfg : Config) (M : ToolModules) (req : Request)
  (c : Cache) :
  snd (serve cfg M req c) <> c ->
  authMiddleware cfg req = Next /\
  Js.get_opt (req_body req) "method" = Js.Str "tools/call" /\
  exists apiKey,
    header req "x-smartsheet-api-key" = Some apiKey /\ apiKey <> "" /\
    snd (serve cfg M req c)
    = snd (getApiInstance apiKey (header req "x-smartsheet-endpoint") c).
Proof.
  unfold serve.
  destruct (authMiddleware cfg req) as [ | refusal ]; cbn [snd]; [ | now intros H ].
  rewrite postMcp_cache. unfold dispatch.
  destruct (negb (Js.truthy (req_body req)) || negb (Js.typeof_object (req_body req)))
    eqn:Hbody; cbn [snd]; [ now intros H | ].
  rewrite !(read_object_like _ _ Hbody). cbn [bind]. unfold route.
  destruct (Js.eq_str (Js.get_opt (req_body req) "method") "initialize");
    [ now intros H | ].
  destruct (Js.eq_str (Js.get_opt (req_body req) "method") "tools/list");
    [ now intros H | ].
  destruct (Js.eq_str (Js.get_opt (req_body req) "method") "tools/call") eqn:Hmethod;
    [ | now intros H ].
  apply eq_str_true in Hmethod.
  destruct (header req "x-smartsheet-api-key") as [k | ]; [ | now intros H ].
  destruct (String.eqb k "") eqn:Hk; [ now intros H | ].
  rewrite callTool_unfold by apply or_else_truthy. cbn [snd].
  intros _. split; [ reflexivity | split; [ exact Hmethod | ] ].
  exists k. split; [ reflexivity | split; [ now apply String.eqb_neq | reflexivity ] ].
Qed.

Lemma cache_changes_only_on_calls_witness :
  let req := Scenario.authorized "nonexistent_tool" (Js.Num 1) in
  snd (serve Sample.config Sample.modules req emptyCache) <> emptyCache /\
  authMiddleware Sample.config req = Next /\
  header req "x-smartsheet-api-key" = Some "token-1".
Proof.
  intro req.
  assert (Hchanged : snd (serve Sample.config Sample.modules req emptyCache) <> emptyCache)
    by (vm_compute; discriminate).
  split; [ exact Hchanged | ].
  destruct (cache_changes_only_on_calls Sample.config Sample.modules req emptyCache Hchanged)
    as (Hauth & _ & apiKey & Hkey & _).
  split; [ exact Hauth | reflexivity ].
Defined.

(** X4: a [tools/call] request that passes the middleware with a non-empty
    API key leaves a client cached under its credential key, whether the
    tool exists, fails or succeeds: the client is obtained before the tool
    is looked up. *)
Theorem call_leaves_client_cached (cfg : Config) (M : ToolModules) (req : Request)
  (c : Cache) (apiKey : string) :
  authMiddleware cfg req = Next ->
  Js.get_opt (req_body req) "method" = Js.Str "tools/call" ->
  header req "x-smartsheet-api-key" = Some apiKey ->
  apiKey <> "" ->
  let apiEndpoint := header req "x-smartsheet-endpoint" in
  snd (serve cfg M req c) = snd (getApiInstance apiKey apiEndpoint c) /\
  JsMap.get (credentialKey apiKey apiEndpoint) (apiInstances (snd (serve cfg M req c)))
  = Some (fst (getApiInstance apiKey apiEndpoint c)).
Proof.
  intros Hauth Hmethod Hkey Hnonempty apiEndpoint.
  assert (Hcache : snd (serve cfg M req c) = snd (getApiInstance apiKey apiEndpoint c)).
  { unfold serve. rewrite Hauth, postMcp_cache.
    rewrite (serve_call cfg M req c apiKey Hauth Hmethod Hkey Hnonempty).
    now rewrite callTool_unfold by apply or_else_truthy. }
  split; [ exact Hcache | ].
  rewrite Hcache. apply getApiInstance_cached.
Qed.

Lemma call_leaves_client_cached_witness :
  let req := Scenario.authorized "nonexistent_tool" (Js.Num 1) in
  authMiddleware Sample.config req = Next /\
  JsMap.get "token-1:default"
    (apiInstances (snd (serve Sample.config Sample.modules req emptyCache)))
  = Some (mkSmartsheetAPI "token-1" "https://api.smartsheet.com/2.0" true).
Proof.
  intro req.
  assert (Hauth : authMiddleware Sample.config req = Next) by reflexivity.
  split; [ exact Hauth | ].
  refine (proj2 (call_leaves_client_cached Sample.config Sample.modules req emptyCache
                   "token-1" Hauth eq_refl eq_refl _)).
  discriminate.
Defined.

(** ** Running a tool *)

Lemma executeTool_earlier (toolName toolArguments : Js.value) (calls : list ToolCall)
  (st : Execution) :
  Forall (fun t => Js.eq_str toolName (tc_name t) = true ->
                   exists p, tc_handler t toolArguments = Returns p) calls ->
  exists st', toolCalls (executeTool toolName toolArguments) calls st = Normal st'.
Proof.
  intros Hcalls. revert st.
  induction Hcalls as [ | t calls Ht _ IH ]; intros st; cbn; [ eauto | ].
  unfold executeTool at 1.
  destruct (Js.eq_str toolName (tc_name t)); cbn; [ | apply IH ].
  destruct (Ht eq_refl) as [p Hp]. rewrite Hp. cbn. apply IH.
Qed.

Section ToolCalls.

Variable cfg : Config.
Variable M : ToolModules.
Variable req : Request.
Variable c : Cache.
Variable apiKey : string.

(** The request passes the middleware and names its credentials. *)
Hypothesis Hauth : authMiddleware cfg req = Next.
Hypothesis Hmethod : Js.get_opt (req_body req) "method" = Js.Str "tools/call".
Hypothesis Hkey : header req "x-smartsheet-api-key" = Some apiKey.
Hypothesis Hnonempty : apiKey <> "".

Let params := Js.or_else (Js.get_opt (req_body req) "params") (Js.Obj []).
Let toolName := Js.get_opt params "name".
Let toolArguments := Js.or_else (Js.get_opt params "arguments") (Js.Obj []).
Let apiEndpoint := header req "x-smartsheet-endpoint".
Let allowDeleteTools := allowDeleteToolsOf req.
Let api := fst (getApiInstance apiKey apiEndpoint c).

(** The sweep runs to its end, and [tc] is the last tool in it that bears
    the requested name; same-named tools before it return from their
    handlers. *)
Variable before after : list ToolCall.
Variable tc : ToolCall.
Hypothesis Hcompletes : completes M api allowDeleteTools.
Hypothesis Hregistered : registered M api allowDeleteTools = before ++ tc :: after.
Hypothesis Hname : toolName = Js.Str (tc_name tc).
Hypothesis Hafter : Forall (fun t => Js.eq_str toolName (tc_name t) = false) after.
Hypothesis Hbefore :
  Forall (fun t => Js.eq_str toolName (tc_name t) = true ->
                   exists p, tc_handler t toolArguments = Returns p) before.

Lemma executeToolCall_last_match :
  fst (executeToolCall M apiKey apiEndpoint allowDeleteTools toolName toolArguments c)
  = match tc_handler tc toolArguments with
    | Returns (Fulfilled v) => Settled (Normal v)
    | Returns (Rejected e) => Settled (Throw e)
    | Returns Pending => Unsettled
    | Throws e => Settled (Throw e)
    end.
Proof.
  unfold executeToolCall. subst api.
  destruct (getApiInstance apiKey apiEndpoint c) as [api' c']. cbn [fst snd] in *.
  rewrite (registerAll_completes _ _ _ _ _ Hcompletes), Hregistered, toolCalls_app.
  destruct (executeTool_earlier toolName toolArguments before (false, Fulfilled Js.Null)
              Hbefore) as [st' Hst'].
  rewrite Hst'. cbn [bind toolCalls]. unfold executeTool at 1.
  replace (Js.eq_str toolName (tc_name tc)) with true
    by (symmetry; apply eq_str_true; exact Hname).
  destruct (tc_handler tc toolArguments) as [e | p]; cbn [bind]; [ reflexivity | ].
  rewrite (executeTool_no_match _ _ _ _ Hafter). cbn [bind negb].
  now destruct p.
Qed.

Lemma serve_last_match :
  fst (serve cfg M req c)
  = fst (postMcp cfg M req c) /\
  dispatch cfg M req c
  = (match tc_handler tc toolArguments with
     | Returns (Fulfilled v) =>
         Settled (Normal (json (Success (CallResult v) (Js.get_opt (req_body req) "id"))))
     | Returns (Rejected error) | Throws error =>
         Settled
           (message <- read error "message" ;;
            text <- print message ;;
            Normal (json (Failure (-32603) ("Tool execution error: " ++ text)
                            (Js.get_opt (req_body req) "id"))))
     | Returns Pending => Unsettled
     end,
     snd (getApiInstance apiKey apiEndpoint c)).
Proof.
  split; [ unfold serve; now rewrite Hauth | ].
  rewrite (serve_call cfg M req c apiKey Hauth Hmethod Hkey Hnonempty).
  rewrite callTool_unfold by apply or_else_truthy.
  fold params. fold toolName. fold toolArguments. fold apiEndpoint. fold allowDeleteTools.
  rewrite executeToolCall_last_match.
  assert (Hprint : print toolName = Normal (tc_name tc)) by now rewrite Hname.
  destruct (tc_handler tc toolArguments) as [e | [v | e | ]]; try reflexivity;
    now rewrite Hprint.
Qed.

(** X5: when the last registered tool bearing the requested name has a
    handler whose result is fulfilled with [v], the reply is a success whose
    result is [v] itself, with the request's id.  The handler is given
    [params.arguments], or an empty object when that is missing or falsy;
    same-named tools registered earlier do not count. *)
Theorem tool_call_returns_handler_result (v : Js.value) :
  tc_handler tc toolArguments = Returns (Fulfilled v) ->
  fst (serve cfg M req c)
  = Sent (json (Success (CallResult v) (Js.get_opt (req_body req) "id"))).
Proof.
  intros Hrun. destruct serve_last_match as [-> Hdispatch].
  unfold postMcp. rewrite Hdispatch, Hrun. reflexivity.
Qed.

(** X6: when that handler throws [error], or returns a promise rejected
    with [error], and [error.message] is the string [message], as it is for
    every [Error], the reply is error -32603 "Tool execution error:
    <message>" with the request's id and HTTP status 200. *)
Theorem tool_call_reports_handler_error (error : Js.value) (message : string) :
  tc_handler tc toolArguments = Throws error \/
  tc_handler tc toolArguments = Returns (Rejected error) ->
  Js.get error "message" = inr (Js.Str message) ->
  fst (serve cfg M req c)
  = Sent (mkResponse 200
            (Failure (-32603) ("Tool execution error: " ++ message)
               (Js.get_opt (req_body req) "id"))).
Proof.
  intros Hrun Hmessage. destruct serve_last_match as [-> Hdispatch].
  unfold postMcp. rewrite Hdispatch.
  destruct Hrun as [-> | ->]; unfold read; rewrite Hmessage; reflexivity.
Qed.

End ToolCalls.

Lemma tool_call_returns_handler_result_witness :
  fst (serve Sample.config Scenario.modules (Scenario.authorized "get_sheet" (Js.Num 9))
         emptyCache)
  = Sent (json (Success (CallResult (Js.Obj [("content", Js.Str "sheet with attachments")]))
                  (Js.Num 9))).
Proof.
  refine (tool_call_returns_handler_result Sample.config Scenario.modules
            (Scenario.authorized "get_sheet" (Js.Num 9)) emptyCache "token-1"
            eq_refl eq_refl eq_refl _
            [Sample.get_sheet; Scenario.share_sheet] [Sample.get_current_user]
            Scenario.get_sheet_v2 _ eq_refl eq_refl _ _ _ eq_refl).
  - discriminate.
  - repeat constructor.
  - repeat constructor.
  - repeat constructor; intros _; eexists; reflexivity.
Defined.

Lemma tool_call_reports_handler_error_witness :
  fst (serve Sample.config Scenario.modules (Scenario.authorized "share_sheet" (Js.Num 9))
         emptyCache)
  = Sent (mkResponse 200
            (Failure (-32603) "Tool execution error: 403 Forbidden" (Js.Num 9))).
Proof.
  refine (tool_call_reports_handler_error Sample.config Scenario.modules
            (Scenario.authorized "share_sheet" (Js.Num 9)) emptyCache "token-1"
            eq_refl eq_refl eq_refl _
            [Sample.get_sheet] [Scenario.get_sheet_v2; Sample.get_current_user]
            Scenario.share_sheet _ eq_refl eq_refl _ _
            (Js.mkError "403 Forbidden") "403 Forbidden" _ eq_refl).
  - discriminate.
  - repeat constructor.
  - repeat constructor.
  - repeat constructor; intros [=].
  - right. reflexivity.
Defined.

(** ** What every request is answered with *)

(** Where the executing registrar got its result from. *)
Lemma executeTool_result (toolName toolArguments : Js.value) (calls : list ToolCall)
  (st : Execution) (found : bool) (p : Promise) :
  toolCalls (executeTool toolName toolArguments) calls st = Normal (found, p) ->
  st = (found, p) \/
  exists tc,
    In tc calls /\ toolName = Js.Str (tc_name tc) /\
    tc_handler tc toolArguments = Returns p.
Proof.
  revert st. induction calls as [ | tc calls IH ]; intros st; cbn.
  - intros [= ->]. now left.
  - unfold executeTool at 1.
    destruct (Js.eq_str toolName (tc_name tc)) eqn:Hname.
    + destruct (tc_handler tc toolArguments) as [e | q] eqn:Hrun; cbn [bind];
        [ discriminate | ].
      intros H. right. destruct (IH _ H) as [[= _ <-] | (tc' & Hin & Htc')].
      * exists tc. split; [ now left | ]. split; [ now apply eq_str_true | exact Hrun ].
      * exists tc'. split; [ now right | exact Htc' ].
    + cbn [bind]. intros H. destruct (IH _ H) as [Hst | (tc' & Hin & Htc')].
      * now left.
      * right. exists tc'. split; [ now right | exact Htc' ].
Qed.

(** [executeToolCall] stays pending only on a registered tool of the
    requested name whose handler returned a promise that never settles. *)
Lemma executeToolCall_Unsettled (M : ToolModules) (apiKey : string)
  (apiEndpoint : option string) (allowDeleteTools : bool)
  (toolName toolArguments : Js.value) (c : Cache) :
  fst (executeToolCall M apiKey apiEndpoint allowDeleteTools toolName toolArguments c)
  = Unsettled ->
  exists tc,
    In tc (registered M (fst (getApiInstance apiKey apiEndpoint c)) allowDeleteTools) /\
    toolName = Js.Str (tc_name tc) /\
    tc_handler tc toolArguments = Returns Pending.
Proof.
  unfold executeToolCall.
  destruct (getApiInstance apiKey apiEndpoint c) as [api c']. cbn [fst].
  destruct (registerAll _ M api allowDeleteTools _) as [[found p] | e] eqn:Hsweep;
    [ | discriminate ].
  destruct found; cbn [negb]; [ | discriminate ].
  destruct p; try discriminate. intros _.
  pose proof (registerAll_Normal _ _ _ _ _ _ Hsweep) as Hcompletes.
  rewrite (registerAll_completes _ _ _ _ _ Hcompletes) in Hsweep.
  destruct (executeTool_result _ _ _ _ _ _ Hsweep) as [[=] | Htc]. exact Htc.
Qed.

(** The one error a string conversion throws. *)
Lemma to_string_error :
  forall (v e : Js.value),
    Js.to_string v = inl e ->
    e = Js.mkError "Cannot convert object to primitive value".
Proof.
  fix IH 1. intros v e. destruct v as [ | | b | n safe | s | items | fields ].
  - discriminate.
  - discriminate.
  - destruct b; discriminate.
  - discriminate.
  - discriminate.
  - cbn. induction items as [ | x rest IHrest ]; [ discriminate | ].
    pose proof (IH x) as Hx.
    destruct x as [ | | b | n safe | s | items' | fields' ];
      try specialize (Hx e);
      repeat match goal with
             | |- context [match ?t with inl _ => _ | inr _ => _ end] =>
                 lazymatch t with
                 | Js.to_string _ => destruct t eqn:?
                 | _ => destruct t eqn:?
                 end
             | |- context [match rest with [] => _ | _ :: _ => _ end] =>
                 destruct rest
             end;
      try discriminate;
      try (intros [= <-]; first [ now apply Hx | now apply IHrest ]).
  - cbn. destruct (Js.assoc "toString" fields); [ now intros [= <-] | discriminate ].
Qed.

Lemma print_Throw (v e : Js.value) :
  print v = Throw e -> exists msg, e = Js.mkError msg.
Proof.
  unfold print. destruct (Js.to_string v) as [e' | text] eqn:Hv; [ | discriminate ].
  intros [= <-]. rewrite (to_string_error _ _ Hv). eauto.
Qed.

Lemma read_Throw (v : Js.value) (prop : string) (e : Js.value) :
  read v prop = Throw e -> exists msg, e = Js.mkError msg.
Proof.
  unfold read. destruct v; cbn; try discriminate; intros [= <-]; eauto.
Qed.

(** What leaves the inner [catch] is a [TypeError]. *)
Lemma callTool_Throw (M : ToolModules) (req : Request) (apiKey : string)
  (params requestId : Js.value) (c : Cache) (e : Js.value) :
  Js.truthy params = true ->
  fst (callTool M req apiKey params requestId c) = Settled (Throw e) ->
  exists msg, e = Js.mkError msg.
Proof.
  intros Hparams. rewrite callTool_unfold by exact Hparams. cbn [fst].
  destruct (fst (executeToolCall _ _ _ _ _ _ _)) as [[result | error] | ];
    try discriminate.
  destruct (print (Js.get_opt params "name")) as [text | e1] eqn:H1; cbn [bind].
  - destruct (read error "message") as [message | e2] eqn:H2; cbn [bind].
    + destruct (print message) as [text' | e3] eqn:H3; cbn [bind]; [ discriminate | ].
      intros [= <-]. exact (print_Throw _ _ H3).
    + intros [= <-]. exact (read_Throw _ _ _ H2).
  - intros [= <-]. exact (print_Throw _ _ H1).
Qed.

(** What [route] throws is a [TypeError], or what [getToolDefinitions]
    threw for a [tools/list]. *)
Lemma route_Throw (cfg : Config) (M : ToolModules) (req : Request)
  (method params requestId : Js.value) (c : Cache) (e : Js.value) :
  Js.truthy params = true ->
  fst (route cfg M req method params requestId c) = Settled (Throw e) ->
  (exists msg, e = Js.mkError msg) \/
  (method = Js.Str "tools/list" /\
   getToolDefinitions M (allowDeleteToolsOf req) = Throw e).
Proof.
  intros Hparams. unfold route.
  destruct (Js.eq_str method "initialize"); [ discriminate | ].
  destruct (Js.eq_str method "tools/list") eqn:Hlist.
  { apply eq_str_true in Hlist.
    destruct (getToolDefinitions M (allowDeleteToolsOf req)); cbn [bind fst];
      [ discriminate | ].
    intros [= <-]. now right. }
  destruct (Js.eq_str method "tools/call").
  - destruct (header req "x-smartsheet-api-key") as [k | ]; [ | discriminate ].
    destruct (String.eqb k ""); [ discriminate | ].
    intros H. left. exact (callTool_Throw _ _ _ _ _ _ _ Hparams H).
  - cbn [fst]. destruct (print method) as [text | e'] eqn:Hprint; cbn [bind];
      [ discriminate | ].
    intros [= <-]. left. exact (print_Throw _ _ Hprint).
Qed.

Lemma dispatch_Throw (cfg : Config) (M : ToolModules) (req : Request) (c : Cache)
  (e : Js.value) :
  fst (dispatch cfg M req c) = Settled (Throw e) ->
  (exists msg, e = Js.mkError msg) \/
  (Js.get_opt (req_body req) "method" = Js.Str "tools/list" /\
   getToolDefinitions M (allowDeleteToolsOf req) = Throw e).
Proof.
  destruct (negb (Js.truthy (req_body req)) || negb (Js.typeof_object (req_body req)))
    eqn:Hbody.
  - unfold dispatch. rewrite Hbody. discriminate.
  - rewrite (dispatch_routed cfg M req c Hbody).
    apply route_Throw, or_else_truthy.
Qed.

(** The route handler never finishes only behind a pending handler. *)
Lemma dispatch_Unsettled (cfg : Config) (M : ToolModules) (req : Request) (c : Cache) :
  fst (dispatch cfg M req c) = Unsettled ->
  Js.get_opt (req_body req) "method" = Js.Str "tools/call" /\
  exists apiKey,
    header req "x-smartsheet-api-key" = Some apiKey /\ apiKey <> "" /\
    let params := Js.or_else (Js.get_opt (req_body req) "params") (Js.Obj []) in
    fst (executeToolCall M apiKey (header req "x-smartsheet-endpoint")
           (allowDeleteToolsOf req) (Js.get_opt params "name")
           (Js.or_else (Js.get_opt params "arguments") (Js.Obj [])) c)
    = Unsettled.
Proof.
  destruct (negb (Js.truthy (req_body req)) || negb (Js.typeof_object (req_body req)))
    eqn:Hbody.
  { unfold dispatch. rewrite Hbody. discriminate. }
  rewrite (dispatch_routed cfg M req c Hbody). unfold route.
  destruct (Js.eq_str (Js.get_opt (req_body req) "method") "initialize");
    [ discriminate | ].
  destruct (Js.eq_str (Js.get_opt (req_body req) "method") "tools/list");
    [ discriminate | ].
  destruct (Js.eq_str (Js.get_opt (req_body req) "method") "tools/call") eqn:Hcall;
    [ | discriminate ].
  apply eq_str_true in Hcall.
  destruct (header req "x-smartsheet-api-key") as [k | ]; [ | discriminate ].
  destruct (String.eqb k "") eqn:Hk; [ discriminate | ].
  rewrite callTool_unfold by apply or_else_truthy. cbn [fst].
  intros H. split; [ exact Hcall | ].
  exists k. split; [ reflexivity | split; [ now apply String.eqb_neq | ] ].
  cbv zeta.
  now destruct (fst (executeToolCall _ _ _ _ _ _ _)) as [[result | error] | ].
Qed.

(** X7: a [POST /mcp] request that passed the body parser goes without a
    reply from the route in two cases only.  An exception leaves the route
    handler only for a [tools/list] request during which a value is thrown
    whose [message] the outer [catch] cannot read or print ([null],
    [undefined], or a message that does not convert to a string).  The
    handler never finishes only for a [tools/call] request that passed the
    middleware with an API key and names a registered tool whose handler
    returned a promise that never settles.  Every other request is sent a
    reply. *)
Theorem unanswered_requests (cfg : Config) (M : ToolModules) (req : Request) (c : Cache) :
  (forall e,
     fst (serve cfg M req c) = Escaped e ->
     Js.get_opt (req_body req) "method" = Js.Str "tools/list" /\
     exists thrown,
       getToolDefinitions M (allowDeleteToolsOf req) = Throw thrown /\
       (message <- read thrown "message" ;; print message) = Throw e) /\
  (fst (serve cfg M req c) = NoReply ->
   authMiddleware cfg req = Next /\
   Js.get_opt (req_body req) "method" = Js.Str "tools/call" /\
   exists apiKey tc,
     header req "x-smartsheet-api-key" = Some apiKey /\ apiKey <> "" /\
     let params := Js.or_else (Js.get_opt (req_body req) "params") (Js.Obj []) in
     In tc (registered M
              (fst (getApiInstance apiKey (header req "x-smartsheet-endpoint") c))
              (allowDeleteToolsOf req)) /\
     Js.get_opt params "name" = Js.Str (tc_name tc) /\
     tc_handler tc (Js.or_else (Js.get_opt params "arguments") (Js.Obj []))
     = Returns Pending).
Proof.
  unfold serve.
  destruct (authMiddleware cfg req) as [ | refusal ]; cbn [fst];
    [ | split; [ intros e | ]; discriminate ].
  unfold postMcp.
  pose proof (dispatch_Throw cfg M req c) as Hthrow.
  pose proof (dispatch_Unsettled cfg M req c) as Hhang.
  destruct (dispatch cfg M req c) as [[[res | error] | ] c']; cbn [fst] in *.
  - split; [ intros e | ]; discriminate.
  - split.
    + intros e He.
      destruct (Hthrow error eq_refl) as [[msg ->] | [Hlist Hthrown]];
        [ discriminate He | ].
      split; [ exact Hlist | ]. exists error. split; [ exact Hthrown | ].
      revert He. catch_cases; cbn [fst]; try discriminate; now intros [= <-].
    + catch_cases; discriminate.
  - split; [ intros e; discriminate | intros _ ].
    destruct (Hhang eq_refl) as (Hcall & k & Hkey & Hk & Hexec).
    split; [ reflexivity | split; [ exact Hcall | ] ].
    destruct (executeToolCall_Unsettled _ _ _ _ _ _ _ Hexec) as (tc & Hin & Hname & Hrun).
    exists k, tc. now repeat split.
Qed.

Lemma unanswered_requests_witness :
  let listing := Sample.post [] (Sample.rpc "tools/list" (Js.Num 1)) in
  let calling := Scenario.authorized "export_sheet" (Js.Num 2) in
  fst (serve Sample.config Scenario.nullThrowingModules listing emptyCache)
  = Escaped (Js.mkError "Cannot read properties of null (reading 'message')") /\
  fst (serve Sample.config Scenario.hangingModules calling emptyCache) = NoReply /\
  exists tc,
    In tc (registered Scenario.hangingModules
             (mkSmartsheetAPI "token-1" "https://api.smartsheet.com/2.0" true) false) /\
    tc_name tc = "export_sheet".
Proof.
  intros listing calling.
  assert (Hhung : fst (serve Sample.config Scenario.hangingModules calling emptyCache)
                  = NoReply) by reflexivity.
  split; [ reflexivity | split; [ exact Hhung | ] ].
  destruct (proj2 (unanswered_requests Sample.config Scenario.hangingModules calling
                     emptyCache) Hhung)
    as (_ & _ & apiKey & tc & Hkey & _ & Hin & Hname & _).
  injection Hkey as <-. exists tc. split; [ exact Hin | ].
  cbn in Hname. now injection Hname as <-.
Defined.

Lemma authMiddleware_refusal_code (cfg : Config) (req : Request) (res : Response) :
  authMiddleware cfg req = Respond res ->
  status res = 401%Z /\ errorCode (body res) = Some (-32001)%Z.
Proof.
  unfold authMiddleware.
  repeat match goal with
         | |- (if ?b then _ else _) = _ -> _ => destruct b
         end; try discriminate; intros [= <-]; now split.
Qed.

Lemma route_codes (cfg : Config) (M : ToolModules) (req : Request)
  (method params requestId : Js.value) (c c' : Cache) (res : Response) :
  Js.truthy params = true ->
  route cfg M req method params requestId c = (Settled (Normal res), c') ->
  status res = 200%Z /\
  In (errorCode (body res))
     [None; Some (-32601)%Z; Some (-32602)%Z; Some (-32603)%Z].
Proof.
  intros Hparams. unfold route.
  destruct (Js.eq_str method "initialize");
    [ intros [= <- _]; cbn; auto | ].
  destruct (Js.eq_str method "tools/list").
  { destruct (getToolDefinitions M (allowDeleteToolsOf req)); cbn [bind];
      [ intros [= <- _]; cbn; auto | discriminate ]. }
  destruct (Js.eq_str method "tools/call").
  2:{ destruct (print method); cbn [bind]; [ intros [= <- _]; cbn; auto | discriminate ]. }
  destruct (header req "x-smartsheet-api-key") as [k | ];
    [ | intros [= <- _]; cbn; auto ].
  destruct (String.eqb k ""); [ intros [= <- _]; cbn; auto | ].
  rewrite callTool_unfold by exact Hparams.
  destruct (fst (executeToolCall _ _ _ _ _ _ _)) as [[result | error] | ];
    [ intros [= <- _]; cbn; auto | | discriminate ].
  catch_cases; try discriminate.
  intros [= <- _]. cbn. auto 6.
Qed.

Lemma serve_codes (cfg : Config) (M : ToolModules) (req : Request) (c : Cache)
  (res : Response) :
  fst (serve cfg M req c) = Sent res ->
  (authMiddleware cfg req = Respond res /\
   status res = 401%Z /\ errorCode (body res) = Some (-32001)%Z) \/
  (authMiddleware cfg req = Next /\
   status res = 200%Z /\
   In (errorCode (body res))
      [None; Some (-32700)%Z; Some (-32601)%Z; Some (-32602)%Z; Some (-32603)%Z]).
Proof.
  unfold serve. destruct (authMiddleware cfg req) as [ | refusal ] eqn:Hauth; cbn [fst].
  - intros Hsent. right. split; [ reflexivity | ].
    revert Hsent. unfold postMcp.
    destruct (dispatch cfg M req c) as [[[res' | error] | ] c'] eqn:Hd; cbn [fst];
      [ | | discriminate ].
    + intros [= <-]. revert Hd. unfold dispatch.
      destruct (negb (Js.truthy (req_body req)) || negb (Js.typeof_object (req_body req)))
        eqn:Hbody.
      * intros [= <- _]. cbn. auto.
      * rewrite !(read_object_like _ _ Hbody). cbn [bind]. intros Hroute.
        destruct (route_codes _ _ _ _ _ _ _ _ _ (or_else_truthy _) Hroute)
          as [Hstatus Hcode].
        split; [ exact Hstatus | ].
        cbn in Hcode |- *. intuition.
    + catch_cases; cbn [fst]; try discriminate.
      intros [= <-]. cbn. auto 7.
  - intros [= <-]. left. split; [ reflexivity | ].
    exact (authMiddleware_refusal_code cfg req refusal Hauth).
Qed.

(** An exception that leaves the route handler is a [TypeError] of the
    outer [catch]. *)
Lemma serve_Escaped (cfg : Config) (M : ToolModules) (req : Request) (c : Cache)
  (e : Js.value) :
  fst (serve cfg M req c) = Escaped e -> exists msg, e = Js.mkError msg.
Proof.
  unfold serve. destruct (authMiddleware cfg req); cbn [fst]; [ | discriminate ].
  unfold postMcp.
  destruct (dispatch cfg M req c) as [[[res | error] | ] c']; cbn [fst];
    try discriminate.
  destruct (read error "message") as [message | e1] eqn:Hread; cbn [bind].
  - destruct (print message) as [text | e2] eqn:Hprint; cbn [bind fst];
      [ discriminate | ].
    intros [= <-]. exact (print_Throw _ _ Hprint).
  - cbn [fst]. intros [= <-]. exact (read_Throw _ _ _ Hread).
Qed.

(** X8: through the whole stack, a reply to a [POST /mcp] request is one of
    three.  The error handler's HTTP 500 "Internal Server Error", outside
    JSON-RPC, is sent exactly when the body parser refused the request or,
    under Express 5, when an exception left the route handler.  Every
    other reply is the middleware's refusal, with HTTP status 401 and error
    code -32001, or a reply of the route with HTTP status 200 that is a
    success or an error with code -32700, -32601, -32602 or -32603. *)
Theorem reply_status_and_code (express : Express) (cfg : Config)
  (M : ToolModules) (r : Incoming) (c : Cache) :
  (forall httpStatus error message,
     fst (handleMcp express cfg M r c) = ServerError httpStatus error message <->
     httpStatus = 500%Z /\ error = "Internal Server Error" /\
     ((exists err, in_parsing r = Refused err /\ Js.get err "message" = inr message) \/
      (express = Express5 /\
       exists req e,
         expressJson express r = inl req /\
         fst (serve cfg M req c) = Escaped e /\
         Js.get e "message" = inr message))) /\
  (forall res,
     fst (handleMcp express cfg M r c) = Routed (Sent res) ->
     (status res = 401%Z /\ errorCode (body res) = Some (-32001)%Z) \/
     (status res = 200%Z /\
      In (errorCode (body res))
         [None; Some (-32700)%Z; Some (-32601)%Z; Some (-32602)%Z; Some (-32603)%Z])).
Proof.
  unfold handleMcp. split.
  - intros httpStatus error message. split.
    + destruct (expressJson express r) as [req | err] eqn:Hparsed.
      * destruct (serve cfg M req c) as [o c'] eqn:Hserve. cbn [fst].
        destruct express, o as [res | e | ]; cbn [settle]; try discriminate.
        destruct (serve_Escaped cfg M req c e) as [msg ->]; [ now rewrite Hserve | ].
        cbn. intros [= <- <- <-]. repeat split. right. split; [ reflexivity | ].
        exists req, (Js.mkError msg). rewrite Hserve. now repeat split.
      * assert (Hrefused : in_parsing r = Refused err).
        { revert Hparsed. unfold expressJson.
          destruct (in_parsing r); try discriminate. now intros [= ->]. }
        cbn [fst]. unfold errorHandler.
        destruct (Js.get err "message") as [e | m] eqn:Hm; [ discriminate | ].
        intros [= <- <- <-]. repeat split. left. eauto.
    + intros (-> & -> & [(err & Hrefused & Hm) | (-> & req & e & Hparsed & Hserve & Hm)]).
      * unfold expressJson. rewrite Hrefused. cbn [fst]. unfold errorHandler.
        now rewrite Hm.
      * rewrite Hparsed.
        destruct (serve_Escaped cfg M req c e Hserve) as [msg ->].
        destruct (serve cfg M req c) as [o c']. cbn [fst] in Hserve |- *. subst o.
        cbn [settle Js.or_else Js.truthy Js.mkError]. unfold errorHandler.
        change (Js.Obj [("message", Js.Str msg)]) with (Js.mkError msg).
        now rewrite Hm.
  - intros res.
    destruct (expressJson express r) as [req | err].
    + pose proof (serve_codes cfg M req c res) as Hcodes.
      destruct (serve cfg M req c) as [o c']. cbn [fst] in *.
      assert (Hsent : settle express o = Routed (Sent res) -> o = Sent res).
      { destruct express, o as [res' | e | ]; cbn [settle]; try now intros [= ->].
        unfold errorHandler. destruct (Js.get _ "message"); discriminate. }
      intros Hrouted. destruct (Hcodes (Hsent Hrouted)) as [(_ & H) | (_ & H)];
        [ now left | now right ].
    + cbn [fst]. unfold errorHandler. destruct (Js.get err "message"); discriminate.
Qed.

(** ** Discovery *)

(** Outside [tools/call], [route] reads the version, the delete flag and
    nothing else of the configuration, the headers and the cache. *)
Lemma route_discovery (cfg cfg' : Config) (M : ToolModules) (req req' : Request)
  (method params requestId : Js.value) (c c' : Cache) :
  packageVersion cfg = packageVersion cfg' ->
  allowDeleteToolsOf req = allowDeleteToolsOf req' ->
  Js.eq_str method "tools/call" = false ->
  route cfg M req method params requestId c
  = (fst (route cfg' M req' method params requestId c'), c).
Proof.
  intros Hversion Hflag Hmethod. unfold route. rewrite Hmethod, Hversion, Hflag.
  destruct (Js.eq_str method "initialize"); [ reflexivity | ].
  destruct (Js.eq_str method "tools/list"); reflexivity.
Qed.

(** X9: a request whose method is not [tools/call] ([initialize],
    [tools/list], an unknown or missing method, a malformed body) gets the
    same answer whatever [REQUIRE_AUTH] and [SECRET_KEY] are, whatever
    [x-secret-key] or API key it carries and whatever the cache holds: the
    answer depends on the body, the package version and the
    [x-allow-delete-tools] flag only, and the cache is left as it was. *)
Theorem discovery_ignores_credentials (cfg cfg' : Config) (M : ToolModules)
  (req req' : Request) (c c' : Cache) :
  packageVersion cfg = packageVersion cfg' ->
  req_body req = req_body req' ->
  allowDeleteToolsOf req = allowDeleteToolsOf req' ->
  Js.eq_str (Js.get_opt (req_body req) "method") "tools/call" = false ->
  fst (serve cfg M req c) = fst (serve cfg' M req' c') /\
  snd (serve cfg M req c) = c.
Proof.
  intros Hversion Hbody Hflag Hmethod.
  assert (Hmethod' : Js.eq_str (Js.get_opt (req_body req') "method") "tools/call" = false)
    by now rewrite <- Hbody.
  unfold serve.
  rewrite (authMiddleware_other_methods cfg req Hmethod).
  rewrite (authMiddleware_other_methods cfg' req' Hmethod').
  assert (Hdispatch : dispatch cfg M req c = (fst (dispatch cfg' M req' c'), c)).
  { unfold dispatch. rewrite <- Hbody.
    destruct (negb (Js.truthy (req_body req)) || negb (Js.typeof_object (req_body req)))
      eqn:Hshape; [ reflexivity | ].
    rewrite !(read_object_like _ _ Hshape). cbn [bind].
    now apply route_discovery. }
  unfold postMcp. rewrite Hdispatch, <- Hbody.
  destruct (dispatch cfg' M req' c') as [[[res | error] | ] c1]; cbn [fst snd];
    try (now split).
  destruct (bind _ _); now split.
Qed.

Lemma discovery_ignores_credentials_witness :
  let open := mkConfig false "" "1.0.0" in
  let anonymous := Sample.post [] (Sample.rpc "tools/list" (Js.Num 4)) in
  let known :=
    Sample.post [("x-secret-key", "s3cret"); ("x-smartsheet-api-key", "token-1")]
      (Sample.rpc "tools/list" (Js.Num 4)) in
  fst (serve Sample.config Sample.modules anonymous emptyCache)
  = fst (serve open Sample.modules known (getApiInstances Sample.busyTraffic emptyCache)).
Proof.
  intros open anonymous known.
  refine (proj1 (discovery_ignores_credentials Sample.config open Sample.modules
                   anonymous known emptyCache _ eq_refl eq_refl eq_refl eq_refl)).
Defined.

(** X10: [GET /tools] and a [tools/list] request without the delete flag
    are served from the same call [getToolDefinitions(false)]: they list
    the same tools, and fail together.  When what is thrown has a string as
    its [message], as every [Error] has, the first answers HTTP 500 "Failed
    to list tools" with that message and the second error -32603 "Internal
    error: <message>". *)
Theorem getTools_matches_tools_list (cfg : Config) (M : ToolModules) (req : Request)
  (c : Cache) :
  Js.get_opt (req_body req) "method" = Js.Str "tools/list" ->
  allowDeleteToolsOf req = false ->
  (forall tools,
     getTools M = Listed tools <->
     fst (serve cfg M req c)
     = Sent (json (Success (ToolsResult tools) (Js.get_opt (req_body req) "id")))) /\
  (forall thrown message,
     getToolDefinitions M false = Throw thrown ->
     Js.get thrown "message" = inr (Js.Str message) ->
     getTools M = ListingFailed 500 "Failed to list tools" (Js.Str message) /\
     fst (serve cfg M req c)
     = Sent (json (Failure (-32603) ("Internal error: " ++ message)
                     (Js.or_else (Js.get_opt (req_body req) "id") Js.Null)))).
Proof.
  intros Hmethod Hflag.
  destruct (get_opt_Str _ _ _ Hmethod) as [fields Hbody].
  assert (Hserve : fst (serve cfg M req c)
                   = fst (postMcp cfg M req c)).
  { unfold serve. now rewrite authMiddleware_other_methods by now rewrite Hmethod. }
  rewrite Hserve. unfold postMcp. rewrite (dispatch_object cfg M req c fields Hbody).
  unfold route, getTools. rewrite Hmethod, Hflag. cbn [Js.eq_str].
  change ("tools/list" =? "initialize")%string with false.
  change ("tools/list" =? "tools/list")%string with true. cbv iota.
  destruct (getToolDefinitions M false) as [listed | e]; cbn [bind fst]; split.
  - intros tools. split; [ now intros [= ->] | now intros [= ->] ].
  - discriminate.
  - intros tools. split.
    + destruct (Js.get e "message"); discriminate.
    + catch_cases; cbn [fst]; discriminate.
  - intros thrown message [= <-] Hmessage. unfold read. rewrite Hmessage.
    split; reflexivity.
Qed.

Lemma getTools_matches_tools_list_witness :
  let req := Sample.post [] (Sample.rpc "tools/list" (Js.Num 4)) in
  getTools Sample.failingModules
  = ListingFailed 500 "Failed to list tools" (Js.Str "folder tools unavailable") /\
  fst (serve Sample.config Sample.failingModules req emptyCache)
  = Sent (json (Failure (-32603) "Internal error: folder tools unavailable" (Js.Num 4))).
Proof.
  intro req.
  exact (proj2 (getTools_matches_tools_list Sample.config Sample.failingModules req
                  emptyCache eq_refl eq_refl)
           (Js.mkError "folder tools unavailable") "folder tools unavailable"
           eq_refl eq_refl).
Defined.

(** X11: a request whose body is an object or an array and whose method is
    none of [initialize], [tools/list] and [tools/call] (a missing or
    non-string method included) is answered without a look at the auth
    headers or the cache: with error -32601 "Method not found: <method>"
    and the request's id when the method converts to a string, and, when it
    does not, with the internal error -32603 that the conversion throws. *)
Theorem unknown_method (cfg : Config) (M : ToolModules) (req : Request) (c : Cache) :
  Js.isObject (req_body req) = true \/ Js.isArray (req_body req) = true ->
  let method := Js.get_opt (req_body req) "method" in
  method <> Js.Str "initialize" ->
  method <> Js.Str "tools/list" ->
  method <> Js.Str "tools/call" ->
  serve cfg M req c
  = (Sent (json
       match Js.to_string method with
       | inr text =>
           Failure (-32601) ("Method not found: " ++ text)
             (Js.get_opt (req_body req) "id")
       | inl _ =>
           Failure (-32603) "Internal error: Cannot convert object to primitive value"
             (Js.or_else (Js.get_opt (req_body req) "id") Js.Null)
       end), c).
Proof.
  intros Hshape method Hinit Hlist Hcall.
  assert (Hno : forall s, method <> Js.Str s -> Js.eq_str method s = false).
  { intros s H. destruct (Js.eq_str method s) eqn:E; [ | reflexivity ].
    apply eq_str_true in E. contradiction. }
  unfold serve. rewrite authMiddleware_other_methods by now apply Hno.
  unfold postMcp. rewrite dispatch_routed.
  - unfold route. fold method.
    rewrite (Hno _ Hinit), (Hno _ Hlist), (Hno _ Hcall). unfold print.
    destruct (Js.to_string method) as [e | text] eqn:Hprint; cbn [bind]; [ | reflexivity ].
    now rewrite (to_string_error _ _ Hprint).
  - destruct (req_body req); destruct Hshape; try discriminate; reflexivity.
Qed.

Lemma unknown_method_witness :
  let missing := Sample.post [] (Js.Obj [("jsonrpc", Js.Str "2.0"); ("id", Js.Str "a")]) in
  let odd := Sample.post [] (Js.Obj [("method", Js.Obj [("toString", Js.Num 1)]);
                                     ("id", Js.Num 0)]) in
  serve Sample.config Sample.modules missing emptyCache
  = (Sent (json (Failure (-32601) "Method not found: undefined" (Js.Str "a"))),
     emptyCache) /\
  serve Sample.config Sample.modules odd emptyCache
  = (Sent (json (Failure (-32603)
                   "Internal error: Cannot convert object to primitive value" Js.Null)),
     emptyCache).
Proof.
  intros missing odd. split.
  - refine (unknown_method Sample.config Sample.modules missing emptyCache _ _ _ _).
    + left. reflexivity.
    + discriminate.
    + discriminate.
    + discriminate.
  - refine (unknown_method Sample.config Sample.modules odd emptyCache _ _ _ _).
    + left. reflexivity.
    + discriminate.
    + discriminate.
    + discriminate.
Defined.

(** ** When the catalog can be listed *)

Lemma convertSchema_Normal (tc : ToolCall) :
  (exists schema, convertSchema tc = Normal schema) <->
  tc_schema tc <> Some Js.Null /\ tc_schema tc <> Some Js.Undefined.
Proof.
  unfold convertSchema.
  destruct (tc_schema tc) as [[ | | b | n | s | items | fields] | ]; cbn.
  1: split; [ intros [schema [=]] | intros [_ H]; now destruct H ].
  1: split; [ intros [schema [=]] | intros [H _]; now destruct H ].
  all: split; [ intros _; split; discriminate | intros _ ].
  all: repeat match goal with
              | |- context [if ?b then _ else _] => destruct b; cbn
              | |- context [convertEntries ?f ?p ?r] => destruct (convertEntries f p r)
              end; eauto.
Qed.

Lemma recordTool_all (calls : list ToolCall) (tools : list ToolDefinition) :
  Forall (fun tc => tc_schema tc <> Some Js.Null /\ tc_schema tc <> Some Js.Undefined)
         calls ->
  exists defs, toolCalls recordTool calls tools = Normal defs.
Proof.
  intros Hcalls. revert tools.
  induction Hcalls as [ | tc calls Htc _ IH ]; intros tools; cbn; [ eauto | ].
  apply convertSchema_Normal in Htc. destruct Htc as [schema Hschema].
  unfold recordTool at 1. rewrite Hschema. cbn. apply IH.
Qed.

(** X12: [getToolDefinitions] returns a catalog exactly when no tool module
    throws and no tool is registered with [null] or [undefined] in the place
    of its schema; one such tool, or one throwing module, fails the whole
    listing.  The catalog then has one definition per registered tool. *)
Theorem getToolDefinitions_succeeds_iff (M : ToolModules) (allowDeleteTools : bool) :
  ((exists defs, getToolDefinitions M allowDeleteTools = Normal defs) <->
   completes M dummyApi allowDeleteTools /\
   Forall (fun tc => tc_schema tc <> Some Js.Null /\ tc_schema tc <> Some Js.Undefined)
          (registered M dummyApi allowDeleteTools)) /\
  (forall defs,
     getToolDefinitions M allowDeleteTools = Normal defs ->
     List.length defs = List.length (registered M dummyApi allowDeleteTools)).
Proof.
  split; [ split | ].
  - intros [defs Hdefs]. split.
    + exact (registerAll_Normal _ _ _ _ _ _ Hdefs).
    + pose proof (getToolDefinitions_recorded _ _ _ Hdefs) as Hrec.
      clear Hdefs. induction Hrec as [ | tc d calls defs (_ & _ & Hconv) _ IH ];
        constructor; [ | exact IH ].
      apply convertSchema_Normal. eauto.
  - intros [Hcompletes Hschemas]. unfold getToolDefinitions.
    rewrite (registerAll_completes _ _ _ _ _ Hcompletes).
    now apply recordTool_all.
  - intros defs Hdefs. symmetry.
    exact (Forall2_length (getToolDefinitions_recorded _ _ _ Hdefs)).
Qed.

(** A tool registered with a null schema fails the listing for all. *)
Example null_schema_fails_listing :
  getToolDefinitions Scenario.nullSchemaModules false
  = Throw (Js.mkError "Cannot convert undefined or null to object").
Proof. reflexivity. Qed.

(** ** More on the client cache *)

Lemma get_app (k : string) (xs ys : list Entry) :
  JsMap.get k (xs ++ ys)
  = match JsMap.get k xs with
    | Some api => Some api
    | None => JsMap.get k ys
    end.
Proof.
  induction xs as [ | e xs IH ]; cbn; [ reflexivity | ].
  now destruct (String.eqb k (entry_key e)).
Qed.

Lemma get_Some_In (k : string) (m : list Entry) (api : SmartsheetAPI) :
  JsMap.get k m = Some api ->
  exists e, In e m /\ entry_key e = k /\ entry_api e = api.
Proof.
  induction m as [ | e m IH ]; cbn; [ discriminate | ].
  destruct (String.eqb k (entry_key e)) eqn:E; string_cases.
  - intros [= <-]. exists e. repeat split. now left.
  - intros H. destruct (IH H) as (e' & Hin & Hk & Hapi).
    exists e'. repeat split; try assumption. now right.
Qed.

Lemma getApiInstances_app (xs ys : list (string * option string)) (c : Cache) :
  getApiInstances (xs ++ ys) c = getApiInstances ys (getApiInstances xs c).
Proof.
  revert c. induction xs as [ | [apiKey apiEndpoint] xs IH ]; intros c; cbn;
    [ reflexivity | apply IH ].
Qed.

(** X13: a [getApiInstance] call keeps every cached client but, at most, the
    oldest.  A key cached before the call is gone after it exactly when it
    was the first key of a full cache and the call was a miss; otherwise it
    is still served the same client. *)
Theorem getApiInstance_evicts_oldest_only (calls : list (string * option string))
  (apiKey : string) (apiEndpoint : option string) (k : string) (api : SmartsheetAPI) :
  let c := getApiInstances calls emptyCache in
  let c' := snd (getApiInstance apiKey apiEndpoint c) in
  let evicting :=
    JsMap.firstKey (apiInstances c) = Some k /\
    capacity <= JsMap.size (apiInstances c) /\
    JsMap.get (credentialKey apiKey apiEndpoint) (apiInstances c) = None in
  JsMap.get k (apiInstances c) = Some api ->
  (evicting -> JsMap.get k (apiInstances c') = None) /\
  (~ evicting -> JsMap.get k (apiInstances c') = Some api).
Proof.
  intros c c' evicting Hk.
  pose proof (getApiInstances_ok calls emptyCache cache_ok_empty) as Hok. fold c in Hok.
  destruct (JsMap.get (credentialKey apiKey apiEndpoint) (apiInstances c))
    as [hit | ] eqn:Hget.
  { split; [ intros (_ & _ & [=]) | intros _ ].
    subst c'. now rewrite (getApiInstance_hit _ _ _ _ Hget). }
  pose proof (getApiInstance_miss apiKey apiEndpoint c Hget (ok_keys _ Hok)) as Hmiss.
  cbv zeta in Hmiss. subst c'. rewrite Hmiss. cbn [snd apiInstances]. clear Hmiss.
  set (fresh := mkEntry _ _ _).
  assert (Hfresh : JsMap.get k [fresh] = None).
  { cbn. destruct (String.eqb k (credentialKey apiKey apiEndpoint)) eqn:E;
      string_cases; [ congruence | reflexivity ]. }
  destruct (Nat.leb_spec capacity (JsMap.size (apiInstances c))) as [Hfull | Hroom].
  - pose proof (ok_distinct _ Hok) as Hdistinct.
    destruct (apiInstances c) as [ | oldest rest ]; [ discriminate Hk | ].
    cbn [tl JsMap.firstKey]. cbn in Hk, Hdistinct.
    inversion Hdistinct as [ | ? ? Holdest _ ]; subst.
    destruct (String.eqb k (entry_key oldest)) eqn:E; string_cases.
    + split; [ intros _ | intros H; exfalso; apply H; now repeat split ].
      rewrite get_app, Hfresh.
      apply get_None_keys in Holdest. now rewrite Holdest.
    + split; [ intros ([= H] & _); now destruct E | intros _ ].
      now rewrite get_app, Hk.
  - split; [ intros (_ & H & _); lia | intros _ ].
    now rewrite get_app, Hk.
Qed.

Lemma getApiInstance_evicts_oldest_only_witness :
  let calls := map Sample.tenant (seq 0 100) in
  let c := getApiInstances calls emptyCache in
  let c' := snd (getApiInstance "token-100" None c) in
  JsMap.get "token-0:default" (apiInstances c)
  = Some (mkSmartsheetAPI "token-0" "https://api.smartsheet.com/2.0" true) /\
  JsMap.get "token-0:default" (apiInstances c') = None.
Proof.
  intros calls c c'.
  assert (Hk : JsMap.get "token-0:default" (apiInstances c)
               = Some (mkSmartsheetAPI "token-0" "https://api.smartsheet.com/2.0" true))
    by (vm_compute; reflexivity).
  split; [ exact Hk | ].
  refine (proj1 (getApiInstance_evicts_oldest_only calls "token-100" None _ _ Hk) _).
  split; [ vm_compute; reflexivity | split ].
  - apply Nat.leb_le. vm_compute. reflexivity.
  - vm_compute. reflexivity.
Defined.

Lemma keys_tl (m : list Entry) : keys (tl m) = tl (keys m).
Proof. now destruct m. Qed.

Lemma skipn_S_tl {A : Type} (n : nat) (l : list A) : skipn (S n) l = tl (skipn n l).
Proof.
  revert l. induction n as [ | n IH ]; intros [ | x l]; try reflexivity.
  cbn [skipn]. rewrite <- IH. reflexivity.
Qed.

(** X14: when all calls in a sequence ask for different cache keys, the
    cache ends up holding the keys of the last 100 calls, in call order:
    capacity is a sliding window over first uses. *)
Theorem cache_holds_latest_keys (calls : list (string * option string)) :
  NoDup (map (fun call => credentialKey (fst call) (snd call)) calls) ->
  keys (apiInstances (getApiInstances calls emptyCache))
  = skipn (List.length calls - capacity)
      (map (fun call => credentialKey (fst call) (snd call)) calls).
Proof.
  induction calls as [ | [apiKey apiEndpoint] calls IH ] using rev_ind; [ reflexivity | ].
  rewrite map_app, getApiInstances_app, length_app. cbn [map fst snd List.length].
  intros Hdistinct.
  set (ks := map (fun call => credentialKey (fst call) (snd call)) calls) in *.
  set (c := getApiInstances calls emptyCache) in *.
  assert (Hks : NoDup ks) by now apply NoDup_app_remove_r in Hdistinct.
  specialize (IH Hks).
  assert (Hnew : ~ In (credentialKey apiKey apiEndpoint) ks).
  { intros Hin. apply NoDup_remove_2 in Hdistinct. apply Hdistinct.
    rewrite app_nil_r. exact Hin. }
  assert (Hget : JsMap.get (credentialKey apiKey apiEndpoint) (apiInstances c) = None).
  { apply get_None_keys. rewrite IH. intros Hin. apply Hnew.
    rewrite <- (firstn_skipn (List.length calls - capacity) ks).
    apply in_or_app. now right. }
  pose proof (getApiInstances_ok calls emptyCache cache_ok_empty) as Hok. fold c in Hok.
  cbn [getApiInstances].
  rewrite (getApiInstance_miss apiKey apiEndpoint c Hget (ok_keys _ Hok)).
  cbn [snd apiInstances].
  assert (Hsize : JsMap.size (apiInstances c)
                  = List.length calls - (List.length calls - capacity)).
  { unfold JsMap.size. rewrite <- (length_map entry_key). fold (keys (apiInstances c)).
    rewrite IH, length_skipn. unfold ks. now rewrite length_map. }
  assert (Hlen : List.length ks = List.length calls) by (unfold ks; apply length_map).
  assert (Hcapacity : 0 < capacity) by (unfold capacity; lia).
  destruct (Nat.leb_spec capacity (JsMap.size (apiInstances c))) as [Hfull | Hroom].
  - unfold keys. rewrite map_app. fold (keys (tl (apiInstances c))).
    rewrite keys_tl, IH. cbn [map entry_key].
    replace (List.length calls + 1 - capacity) with (S (List.length calls - capacity))
      by lia.
    rewrite skipn_app, skipn_S_tl.
    replace (S (List.length calls - capacity) - List.length ks) with 0 by lia.
    reflexivity.
  - unfold keys. rewrite map_app. fold (keys (apiInstances c)). rewrite IH.
    cbn [map entry_key].
    replace (List.length calls - capacity) with 0 by lia.
    replace (List.length calls + 1 - capacity) with 0 by lia.
    reflexivity.
Qed.

Lemma cache_holds_latest_keys_witness :
  keys (apiInstances (getApiInstances
                        [("token-a", None); ("token-a", Some "https://eu.example");
                         ("token-b", None)] emptyCache))
  = ["token-a:default"; "token-a:https://eu.example"; "token-b:default"].
Proof.
  refine (cache_holds_latest_keys
            [("token-a", None); ("token-a", Some "https://eu.example"); ("token-b", None)]
            _).
  repeat constructor; cbn; intuition discriminate.
Defined.

Lemma colon_split (a b x y : string) :
  colonFree a = true -> colonFree b = true ->
  (a ++ ":" ++ x)%string = (b ++ ":" ++ y)%string -> a = b.
Proof.
  revert b. induction a as [ | ch a IH ]; intros [ | ch' b ]; cbn.
  - reflexivity.
  - intros _ Hb [= <- _]. discriminate Hb.
  - intros Ha _ [= -> _]. discriminate Ha.
  - intros Ha Hb [= <- Hrest].
    apply andb_true_iff in Ha, Hb. f_equal. now apply IH.
Qed.

(** X15: when no API key presented so far contains a colon, every call is
    handed a client that carries the caller's own API key: the cache never
    serves one tenant the client of another.  (With colons in keys it can,
    since the cache key joins key and endpoint with a colon.) *)
Theorem colon_free_keys_get_own_client (calls : list (string * option string))
  (apiKey : string) (apiEndpoint : option string) :
  Forall (fun call => colonFree (fst call) = true) calls ->
  colonFree apiKey = true ->
  accessToken (fst (getApiInstance apiKey apiEndpoint (getApiInstances calls emptyCache)))
  = apiKey.
Proof.
  intros Hcalls Hkey.
  set (own := fun e : Entry =>
                colonFree (accessToken (entry_api e)) = true /\
                exists rest, entry_key e
                             = (accessToken (entry_api e) ++ ":" ++ rest)%string).
  assert (Hstep : forall k e c,
             colonFree k = true -> cache_ok c -> Forall own (apiInstances c) ->
             Forall own (apiInstances (snd (getApiInstance k e c)))).
  { intros k e c Hk Hok Hown.
    destruct (JsMap.get (credentialKey k e) (apiInstances c)) as [hit | ] eqn:Hget.
    - now rewrite (getApiInstance_hit _ _ _ _ Hget).
    - rewrite (getApiInstance_miss k e c Hget (ok_keys _ Hok)). cbn [snd apiInstances].
      assert (Hfresh : own (mkEntry (credentialKey k e)
                              (mkSmartsheetAPI k
                                 (endpoint_or e "https://api.smartsheet.com/2.0") true)
                              (insertions c))).
      { split; [ exact Hk | ]. eexists. reflexivity. }
      destruct (Nat.leb capacity (JsMap.size (apiInstances c)));
        apply Forall_app; split; try (constructor; [ exact Hfresh | constructor ]);
        [ | exact Hown ].
      destruct (apiInstances c); [ constructor | now inversion Hown ]. }
  assert (Hreach : forall c,
             cache_ok c -> Forall own (apiInstances c) ->
             cache_ok (getApiInstances calls c) /\
             Forall own (apiInstances (getApiInstances calls c))).
  { induction Hcalls as [ | [k e] calls Hk _ IH ]; intros c Hok Hown; cbn;
      [ now split | ].
    apply IH; [ now apply getApiInstance_ok | now apply Hstep ]. }
  destruct (Hreach emptyCache cache_ok_empty (Forall_nil _)) as [Hok Hown].
  set (c := getApiInstances calls emptyCache) in *.
  destruct (JsMap.get (credentialKey apiKey apiEndpoint) (apiInstances c))
    as [hit | ] eqn:Hget.
  - rewrite (getApiInstance_hit _ _ _ _ Hget). cbn [fst].
    destruct (get_Some_In _ _ _ Hget) as (e & Hin & Hk & <-).
    rewrite Forall_forall in Hown. destruct (Hown e Hin) as [Hfree [rest Hrest]].
    rewrite Hrest in Hk. exact (colon_split _ _ _ _ Hfree Hkey Hk).
  - now rewrite (getApiInstance_miss apiKey apiEndpoint c Hget (ok_keys _ Hok)).
Qed.

Lemma colon_free_keys_get_own_client_witness :
  accessToken (fst (getApiInstance "token-0" (Some "default")
                      (getApiInstances (map Sample.tenant (seq 0 3)) emptyCache)))
  = "token-0".
Proof.
  refine (colon_free_keys_get_own_client (map Sample.tenant (seq 0 3)) "token-0"
            (Some "default") _ eq_refl).
  repeat constructor.
Defined.
